(** * baseExpress: the authentication and authorization pipeline

    A shallow embedding of the Express/Mongoose gateway: the User model
    (models/User.ts), the gates of middleware/auth.ts, the error handler of
    middleware/error.ts, the controllers (controllers/auth.ts,
    controllers/users.ts), the users router and the start-up script
    (server.ts).

    Handlers are [async] functions that await one store operation after
    another; here each is a function from the store (and the request) to the
    new store and the response.  Exceptions are values of [Exn].  What the
    code takes from npm packages (bcryptjs, jsonwebtoken and ms, the MongoDB
    query engine, the regular expression of the e-mail validator) is an
    interface, given as a type class. *)

From Stdlib Require Import String Ascii List ZArith Bool Lia DecimalString.
Import ListNotations.

Set Warnings "-register-all".

Open Scope list_scope.
Open Scope string_scope.

(* ================================================================== *)
(** * JavaScript values and string primitives *)
(* ================================================================== *)

Module JS.

(** Truthiness of a [string | undefined]: [undefined] and the empty
    string are falsy. *)
Definition truthy (v : option string) : bool :=
  match v with
  | None => false
  | Some s => negb (s =? "")
  end.

(** [a || b] on strings. *)
Definition or_else (v : option string) (d : string) : string :=
  if truthy v then match v with Some s => s | None => d end else d.

(** [s.startsWith(p)] *)
Definition startsWith (s p : string) : bool := String.prefix p s.

(** [s.split(sep)] for a separator of one character: the pieces between
    the separators, empty pieces included; never the empty array. *)
Fixpoint split (sep : ascii) (s : string) : list string :=
  match s with
  | EmptyString => [""]
  | String c r =>
      if Ascii.eqb c sep then "" :: split sep r
      else match split sep r with
           | [] => [String c ""]
           | h :: t => String c h :: t
           end
  end.

(** [a.join(sep)] *)
Definition join (sep : string) (l : list string) : string :=
  String.concat sep l.

(** [a.includes(x)] on an array of strings. *)
Definition includes (l : list string) (x : string) : bool :=
  existsb (String.eqb x) l.

(** White space of [String.prototype.trim] and of [\s], on ASCII.  The
    string primitives of this module are JavaScript's on ASCII strings:
    there a character is a UTF-16 code unit and [String.length] is
    [length].  The white space beyond ASCII (U+00A0, U+2028, U+FEFF, ...)
    is not recognised. *)
Definition is_space (c : ascii) : bool :=
  let n := nat_of_ascii c in
  (n =? 32)%nat || ((9 <=? n)%nat && (n <=? 13)%nat).

Fixpoint trimStart (s : string) : string :=
  match s with
  | EmptyString => EmptyString
  | String c r => if is_space c then trimStart r else s
  end.

(** [trimEnd]: a character is kept when it is not a space or when
    something is kept after it. *)
Fixpoint trimEnd (s : string) : string :=
  match s with
  | EmptyString => EmptyString
  | String c r =>
      match trimEnd r with
      | EmptyString => if is_space c then EmptyString else String c EmptyString
      | r' => String c r'
      end
  end.

Definition trim (s : string) : string := trimEnd (trimStart s).

(** [s.split(/\s+/)] without its empty pieces. *)
Fixpoint words_aux (cur : string) (s : string) : list string :=
  match s with
  | EmptyString => if cur =? "" then [] else [cur]
  | String c r =>
      if is_space c
      then (if cur =? "" then words_aux "" r else cur :: words_aux "" r)
      else words_aux (cur ++ String c "") r
  end.

Definition words (s : string) : list string := words_aux "" s.

(** Digits of [parseInt]. *)
Definition digit_of (radix : Z) (c : ascii) : option Z :=
  let n := Z.of_nat (nat_of_ascii c) in
  let d :=
    if ((48 <=? n) && (n <=? 57))%Z then Some (n - 48)%Z
    else if ((97 <=? n) && (n <=? 122))%Z then Some (n - 87)%Z
    else if ((65 <=? n) && (n <=? 90))%Z then Some (n - 55)%Z
    else None in
  match d with
  | Some v => if (v <? radix)%Z then Some v else None
  | None => None
  end.

(** The longest prefix of digits, read in [radix]; [None] when the first
    character is not a digit. *)
Fixpoint digits (radix : Z) (acc : option Z) (s : string) : option Z :=
  match s with
  | EmptyString => acc
  | String c r =>
      match digit_of radix c with
      | Some d =>
          digits radix
            (Some (match acc with Some a => a * radix + d | None => d end)%Z) r
      | None => acc
      end
  end.

(** [parseInt(s)] with no radix; [None] is [NaN].  [undefined] is
    converted to the string ["undefined"], which has no digit.  The result
    is the integer the digits denote: JavaScript's number when that integer
    is below 2^53 in absolute value (beyond, a double is an
    approximation). *)
Definition parseInt (v : option string) : option Z :=
  match v with
  | None => None
  | Some s =>
      let s := trimStart s in
      let '(neg, s) :=
        match s with
        | String "-" r => (true, r)
        | String "+" r => (false, r)
        | _ => (false, s)
        end in
      let n :=
        match s with
        | String "0" (String "x" r) => digits 16 None r
        | String "0" (String "X" r) => digits 16 None r
        | _ => digits 10 None s
        end in
      match n with
      | Some k => Some (if neg then - k else k)%Z
      | None => None
      end
  end.

(** [n || d] on numbers: [NaN] and [0] are falsy. *)
Definition num_or (n : option Z) (d : Z) : Z :=
  match n with
  | Some k => if (k =? 0)%Z then d else k
  | None => d
  end.

End JS.

(** The double quote, for the messages that contain one. *)
Definition dquote : string := String (ascii_of_nat 34) EmptyString.

(* ================================================================== *)
(** * JSON bodies, responses, exceptions *)
(* ================================================================== *)

Inductive Json : Type :=
| JNull
| JBool (b : bool)
| JNum (n : Z)
| JStr (s : string)
| JArr (l : list Json)
| JObj (l : list (string * Json)).

(** [res.status(s).json(b)] *)
Record Response : Type := mkResponse { status : Z; body : Json }.

(** The shape error.ts reads from a thrown value ([CustomError]). *)
Record JsError : Type := mkError {
  err_name : string;
  err_message : string;
  err_status : option Z;
  err_code : option Z;
  err_errors : option (list (string * string))  (* path, message *)
}.

(** [new Error(msg)] *)
Definition Error (msg : string) : JsError := mkError "Error" msg None None None.

(** A computation that returns or throws. *)
Inductive Exn (A : Type) : Type :=
| Ok (a : A)
| Throw (e : JsError).
Arguments Ok {A} a.
Arguments Throw {A} e.

Definition bind {A B} (m : Exn A) (k : A -> Exn B) : Exn B :=
  match m with
  | Ok a => k a
  | Throw e => Throw e
  end.

Notation "x <- m ;; k" := (bind m (fun x => k))
  (at level 61, m at next level, right associativity).

(** Does a JSON value hold the string [s] somewhere (as a string value)? *)
Fixpoint mentions (s : string) (j : Json) {struct j} : bool :=
  match j with
  | JStr t => t =? s
  | JArr l => existsb (mentions s) l
  | JObj l => existsb (fun kv => mentions s (snd kv)) l
  | _ => false
  end.

(** [obj.key] *)
Definition get (key : string) (j : Json) : option Json :=
  match j with
  | JObj l =>
      match find (fun kv => fst kv =? key) l with
      | Some kv => Some (snd kv)
      | None => None
      end
  | _ => None
  end.

(** [{ ...obj, [k]: v }]: a key that is there keeps its place. *)
Fixpoint obj_set {V} (k : string) (v : V) (o : list (string * V)) : list (string * V) :=
  match o with
  | [] => [(k, v)]
  | (k', v') :: r => if k' =? k then (k, v) :: r else (k', v') :: obj_set k v r
  end.

(* ================================================================== *)
(** * Data model (types/index.ts, models/User.ts) *)
(* ================================================================== *)

(** [role: 'administrator' | 'client' | 'employee'] *)
Inductive Role : Type := administrator | client | employee.

Definition role_name (r : Role) : string :=
  match r with
  | administrator => "administrator"
  | client => "client"
  | employee => "employee"
  end.

(** The schema's [enum]. *)
Definition role_enum : list Role := [administrator; client; employee].

Definition role_of_string (s : string) : option Role :=
  find (fun r => role_name r =? s) role_enum.

(** A stored user document.  [password] is what the collection holds in
    that path. *)
Record User : Type := mkUser {
  _id : string;
  name : string;
  username : string;
  email : string;
  role : Role;
  password : string;
  phone : option string;
  address : option string;
  createdAt : Z
}.

(** The users collection, in insertion order. *)
Definition Db : Type := list User.

(** The variables of [process.env] the code reads. *)
Record Env : Type := mkEnv {
  JWT_SECRET : option string;
  JWT_EXPIRE : option string;
  PORT : option string;
  NODE_ENV : option string
}.

(** What one request takes from outside the program: the clock
    ([Date.now()], in milliseconds), the ObjectId the driver generates for
    a new document, and the salt [bcrypt.genSalt(10)] draws. *)
Record World : Type := mkWorld {
  now : Z;
  fresh_id : string;
  salt : string
}.

(** [req.body], with the paths of the schema that the handlers read.  The
    bodies of the model are the JSON objects whose values at these seven
    keys are strings (or absent); a value of another type, another key and
    an array body are not among them.  ([login_any], below, takes a
    password of any JSON type.) *)
Record Body : Type := mkBody {
  b_name : option string;
  b_username : option string;
  b_email : option string;
  b_password : option string;
  b_role : option string;
  b_phone : option string;
  b_address : option string
}.

Definition empty_body : Body := mkBody None None None None None None None.

(** [AuthenticatedRequest]: the parts of an Express request in use. *)
Record Request : Type := mkRequest {
  authorization : option string;          (* req.headers.authorization *)
  req_body : Body;                        (* req.body *)
  req_query : list (string * string);     (* req.query *)
  params_id : string;                     (* req.params.id *)
  user : option User                      (* req.user *)
}.

Definition set_user (req : Request) (u : User) : Request :=
  mkRequest (authorization req) (req_body req) (req_query req) (params_id req) (Some u).

(** [req.query[k]] *)
Definition query_get (k : string) (q : list (string * string)) : option string :=
  match find (fun kv => fst kv =? k) q with
  | Some kv => Some (snd kv)
  | None => None
  end.

(** What a middleware or a handler does with a request: it sends a
    response, calls [next()] (the request may have been extended), or calls
    [next(err)]. *)
Inductive Outcome : Type :=
| Responded (r : Response)
| Next (req : Request)
| NextErr (e : JsError).

(* ================================================================== *)
(** * Interfaces of the npm packages *)
(* ================================================================== *)

(** bcryptjs: [hash(s, salt)] and [compare(s, hash)].  There is no other
    operation on a hash. *)
Class Bcrypt : Type := {
  bcrypt_hash : string -> string -> string;
  bcrypt_compare : string -> string -> bool
}.

(** The claims of a token the code issues: [{ id, iat, exp }]. *)
Record Claims : Type := mkClaims {
  claim_id : string;
  claim_iat : Z;
  claim_exp : option Z
}.

(** The signature layer under jsonwebtoken (jws, HS256) and the timespan
    parser it uses (ms, in milliseconds; [None] is [undefined]). *)
Class Jws : Type := {
  jws_sign : Claims -> string -> string;
  jws_verify : string -> string -> option Claims;
  ms : string -> option Z
}.

(** The MongoDB query engine behind [find]: does a document satisfy
    [{ field: { $regex: pattern, $options: 'i' } }] for every pair of the
    filter, the order [sort] gives, and the cursor's [skip] and [limit].
    [email_match] is the test of the email path's regular expression. *)
Class Mongo : Type := {
  filter_matches : list (string * string) -> User -> bool;
  sort_docs : list (string * Z) -> list User -> list User;
  skip_limit : Z -> Z -> list User -> Exn (list User);
  email_match : string -> bool
}.

(* ================================================================== *)
(** * jsonwebtoken, over the signature layer *)
(* ================================================================== *)

Section Jsonwebtoken.
Context {jw : Jws}.

Definition expiresIn_message : string :=
  dquote ++ "expiresIn" ++ dquote
  ++ " should be a number of seconds or string representing a timespan".

(** [jwt.sign({ id }, secret, { expiresIn })].  The options object has
    the key [expiresIn] whatever its value, and the validator of that key
    accepts an integer or a non-empty string only.  [iat] is the clock in
    seconds and [exp] is [floor(iat + ms(expiresIn) / 1000)]. *)
Definition jwt_sign (id secret : string) (expiresIn : option string) (clock : Z)
  : Exn string :=
  if negb (JS.truthy (Some secret))
  then Throw (Error "secretOrPrivateKey must have a value")
  else
    match expiresIn with
    | Some e =>
        if JS.truthy (Some e) then
          let iat := (clock / 1000)%Z in
          match ms e with
          | Some d => Ok (jws_sign (mkClaims id iat (Some (iat + d / 1000)%Z)) secret)
          | None =>
              Throw (Error (expiresIn_message ++ " eg: " ++ dquote ++ "1d" ++ dquote
                            ++ ", " ++ dquote ++ "20h" ++ dquote ++ ", 60"))
          end
        else Throw (Error expiresIn_message)
    | None => Throw (Error expiresIn_message)
    end.

Definition JsonWebTokenError (msg : string) : JsError :=
  mkError "JsonWebTokenError" msg None None None.

Definition TokenExpiredError : JsError :=
  mkError "TokenExpiredError" "jwt expired" None None None.

(** [jwt.verify(token, secret)]: the signature, then the expiration
    against the clock in seconds. *)
Definition jwt_verify (token secret : string) (clock : Z) : Exn Claims :=
  match jws_verify token secret with
  | None => Throw (JsonWebTokenError "invalid token")
  | Some c =>
      match claim_exp c with
      | Some e => if (e <=? clock / 1000)%Z then Throw TokenExpiredError else Ok c
      | None => Ok c
      end
  end.

End Jsonwebtoken.

(* ================================================================== *)
(** * config/security.ts *)
(* ================================================================== *)

Module SECURITY_CONFIG.
(** [JWT_EXPIRE: process.env.JWT_EXPIRE || '30d'] *)
Definition JWT_EXPIRE (env : Env) : string :=
  JS.or_else (JWT_EXPIRE env) "30d".
End SECURITY_CONFIG.

(* ================================================================== *)
(** * models/User.ts: the schema and what Mongoose does with it *)
(* ================================================================== *)

(** The paths of [UserSchema], in the order of the schema, after [_id]. *)
Definition schema_paths : list string :=
  ["_id"; "name"; "username"; "email"; "role"; "password"; "phone"; "address";
   "createdAt"].

(** The paths a request body can set. *)
Definition body_paths : list string :=
  ["name"; "username"; "email"; "role"; "password"; "phone"; "address"].

(** The paths declared [select: false]. *)
Definition select_false : list string := ["password"].

Definition body_get (p : string) (b : Body) : option string :=
  if p =? "name" then b_name b
  else if p =? "username" then b_username b
  else if p =? "email" then b_email b
  else if p =? "role" then b_role b
  else if p =? "password" then b_password b
  else if p =? "phone" then b_phone b
  else if p =? "address" then b_address b
  else None.

(** The value of a path of a document, as JSON; an optional path that is
    not set has none. *)
Definition path_value (p : string) (u : User) : option Json :=
  if p =? "_id" then Some (JStr (_id u))
  else if p =? "name" then Some (JStr (name u))
  else if p =? "username" then Some (JStr (username u))
  else if p =? "email" then Some (JStr (email u))
  else if p =? "role" then Some (JStr (role_name (role u)))
  else if p =? "password" then Some (JStr (password u))
  else if p =? "phone" then option_map JStr (phone u)
  else if p =? "address" then option_map JStr (address u)
  else if p =? "createdAt" then Some (JNum (createdAt u))
  else None.

(** A document as a query or [create] hands it to the code: the stored
    record and the paths that were loaded. *)
Record Doc : Type := mkDoc { doc_user : User; doc_fields : list string }.

(** [doc.toJSON()], as [res.json] serializes a document. *)
Definition toJSON (d : Doc) : Json :=
  JObj (flat_map (fun p => match path_value p (doc_user d) with
                           | Some v => [(p, v)]
                           | None => []
                           end) (doc_fields d)).

(** [this.password] of a loaded document. *)
Definition doc_password (d : Doc) : option string :=
  if JS.includes (doc_fields d) "password" then Some (password (doc_user d)) else None.

Definition set_password (u : User) (h : string) : User :=
  mkUser (_id u) (name u) (username u) (email u) (role u) h (phone u) (address u)
         (createdAt u).

(** ** Projections: [Query.select(string)] with the schema's [select: false] *)

Definition plus_paths (toks : list string) : list string :=
  flat_map (fun t => match t with String "+" r => [r] | _ => [] end) toks.

Definition minus_paths (toks : list string) : list string :=
  flat_map (fun t => match t with String "-" r => [r] | _ => [] end) toks.

Definition plain_paths (toks : list string) : list string :=
  filter (fun t => match t with
                   | String "+" _ => false
                   | String "-" _ => false
                   | _ => true
                   end) toks.

Definition MongoServerError (msg : string) (code : option Z) : JsError :=
  mkError "MongoServerError" msg None code None.

(** The paths a query loads.  A string of names separated by spaces: [-p]
    excludes [p], [+p] forces a [select: false] path in, a plain name makes
    the projection an inclusion of the names given (and of [_id]).  With no
    plain name every path is loaded but the excluded ones and the
    [select: false] ones that are not forced in. *)
Definition select (sel : string) : Exn (list string) :=
  let toks := JS.words sel in
  let inc := plain_paths toks in
  let exc := minus_paths toks in
  let plus := plus_paths toks in
  match inc with
  | _ :: _ =>
      if existsb (fun p => negb (p =? "_id")) exc
      then Throw (MongoServerError
                    "Projection cannot have a mix of inclusion and exclusion." None)
      else Ok (filter (fun p => JS.includes inc p || JS.includes plus p
                                || ((p =? "_id") && negb (JS.includes exc "_id")))
                      schema_paths)
  | [] =>
      Ok (filter (fun p => negb (JS.includes exc p)
                           && (negb (JS.includes select_false p) || JS.includes plus p))
                 schema_paths)
  end.

(** The paths of a query with no [select]. *)
Definition default_fields : list string :=
  filter (fun p => negb (JS.includes select_false p)) schema_paths.

(** [v] as a string, where [v] is known to be one. *)
Definition value (v : option string) : string :=
  match v with Some s => s | None => "" end.

(** ** Validators and setters of the schema *)

Definition required (msg : string) (v : option string) : option string :=
  if JS.truthy v then None else Some msg.

(** [maxlength] and [minlength] compare the [length] of the value, its
    number of UTF-16 code units: [String.length] on an ASCII string. *)
Definition maxlength (n : nat) (msg : string) (v : option string) : option string :=
  match v with
  | Some s => if (n <? String.length s)%nat then Some msg else None
  | None => None
  end.

Definition minlength (n : nat) (msg : string) (v : option string) : option string :=
  match v with
  | Some s => if (String.length s <? n)%nat then Some msg else None
  | None => None
  end.

Definition enum (path : string) (v : option string) : option string :=
  match v with
  | Some s =>
      match role_of_string s with
      | Some _ => None
      | None => Some ("`" ++ s ++ "` is not a valid enum value for path `" ++ path ++ "`.")
      end
  | None => None
  end.

(** The first validator of a path that fails gives the path's error. *)
Fixpoint first_error (checks : list (option string)) : option string :=
  match checks with
  | [] => None
  | Some m :: _ => Some m
  | None :: r => first_error r
  end.

(** [trim: true] on [name] and [username]. *)
Definition setter (p : string) (v : option string) : option string :=
  if (p =? "name") || (p =? "username") then option_map JS.trim v else v.

Definition apply_setters (b : Body) : Body :=
  mkBody (setter "name" (b_name b)) (setter "username" (b_username b))
         (b_email b) (b_password b) (b_role b) (b_phone b) (b_address b).

Definition ValidationError (errs : list (string * string)) : JsError :=
  mkError "ValidationError"
          ("User validation failed: "
           ++ JS.join ", " (map (fun pm => fst pm ++ ": " ++ snd pm) errs))
          None None (Some errs).

Definition E11000 : JsError :=
  MongoServerError "E11000 duplicate key error collection: users" (Some 11000%Z).

Definition is_hex (c : ascii) : bool :=
  match JS.digit_of 16 c with Some _ => true | None => false end.

(** A string that casts to an ObjectId: 24 hexadecimal digits.  An [_id]
    is held as the string [ObjectId.toString()] gives, with the digits
    [a]-[f] in lower case, and the lookups by [_id] compare strings: they
    are the code's for an id in that form. *)
Definition isValidObjectId (s : string) : bool :=
  (String.length s =? 24)%nat && forallb is_hex (list_ascii_of_string s).

Definition CastError (v : string) : JsError :=
  mkError "CastError"
          ("Cast to ObjectId failed for value " ++ dquote ++ v ++ dquote
           ++ " (type string) at path " ++ dquote ++ "_id" ++ dquote
           ++ " for model " ++ dquote ++ "User" ++ dquote)
          None None None.

Section UserModel.
Context {bc : Bcrypt} {jw : Jws} {mg : Mongo}.

(** [match] of the email path: not run on an empty value. *)
Definition match_email (msg : string) (v : option string) : option string :=
  match v with
  | Some s => if JS.truthy (Some s) && negb (email_match s) then Some msg else None
  | None => None
  end.

(** The validators of each path, in the order of the schema. *)
Definition validate_path (p : string) (v : option string) : option string :=
  if p =? "name" then
    first_error [required "Please add a name" v;
                 maxlength 50 "Name cannot be more than 50 characters" v]
  else if p =? "username" then
    first_error [required "Please add a username" v;
                 maxlength 30 "Username cannot be more than 30 characters" v]
  else if p =? "email" then
    first_error [required "Please add an email" v;
                 match_email "Please add a valid email" v]
  else if p =? "role" then enum "role" v
  else if p =? "password" then
    first_error [required "Please add a password" v;
                 minlength 6 "Password must be at least 6 characters" v]
  else if p =? "phone" then
    maxlength 20 "Phone number cannot be longer than 20 characters" v
  else if p =? "address" then
    maxlength 200 "Address cannot be longer than 200 characters" v
  else None.

(** The errors of the given paths of a body, one for each failing path. *)
Definition validation_errors (paths : list string) (b : Body) : list (string * string) :=
  flat_map (fun p => match validate_path p (body_get p b) with
                     | Some m => [(p, m)]
                     | None => []
                     end) paths.

(** [role]'s value: the [default] when the body has none. *)
Definition role_or_default (v : option string) : Role :=
  match v with
  | Some s => match role_of_string s with Some r => r | None => client end
  | None => client
  end.

(** [new User(attributes)] and its validation: setters, defaults
    ([role], [createdAt]), then every validator. *)
Definition new_document (b : Body) (w : World) : Exn User :=
  let b := apply_setters b in
  match validation_errors body_paths b with
  | [] =>
      match b_name b, b_username b, b_email b, b_password b with
      | Some n, Some un, Some e, Some pw =>
          Ok (mkUser (fresh_id w) n un e (role_or_default (b_role b)) pw
                     (b_phone b) (b_address b) (now w))
      | _, _, _, _ => Throw (ValidationError [])
      end
  | errs => Throw (ValidationError errs)
  end.

(** [UserSchema.pre('save')]: a modified password is replaced by its
    bcrypt hash under a new salt. *)
Definition pre_save (isModified_password : bool) (slt : string) (u : User) : User :=
  if negb isModified_password then u
  else set_password u (bcrypt_hash (password u) slt).

(** The unique indexes of the collection: [_id], [username], [email]. *)
Definition duplicate_key (u : User) (db : Db) : bool :=
  existsb (fun v => (_id v =? _id u) || (username v =? username u)
                    || (email v =? email u)) db.

Definition insertOne (u : User) (db : Db) : Exn Db :=
  if duplicate_key u db then Throw E11000 else Ok (db ++ [u])%list.

(** [User.create(attributes)]: validate, run the save hook, insert.  The
    document returned holds every path that was set. *)
Definition create (b : Body) (w : World) (db : Db) : Exn (Doc * Db) :=
  u <- new_document b w ;;
  let u := pre_save true (salt w) u in
  db' <- insertOne u db ;;
  Ok (mkDoc u schema_paths, db').

(** The string value of a path, for the equality filters of [login]. *)
Definition path_string (p : string) (u : User) : option string :=
  match path_value p u with
  | Some (JStr s) => Some s
  | _ => None
  end.

(** An equality filter on a document.  Mongoose casts each value of a
    filter through the setters of its path before the comparison, so a
    [username] (or [name]) is trimmed as it is on a write. *)
Definition satisfies (query : list (string * string)) (u : User) : bool :=
  forallb (fun kv => match path_string (fst kv) u with
                     | Some s => s =? value (setter (fst kv) (Some (snd kv)))
                     | None => false
                     end) query.

(** [User.findOne(query).select(sel)] *)
Definition findOne (query : list (string * string)) (sel : string) (db : Db)
  : Exn (option Doc) :=
  fields <- select sel ;;
  Ok (option_map (fun u => mkDoc u fields) (find (satisfies query) db)).

(** [User.findById(id)] *)
Definition findById (id : string) (db : Db) : Exn (option Doc) :=
  if isValidObjectId id
  then Ok (option_map (fun u => mkDoc u default_fields)
                      (find (fun u => _id u =? id) db))
  else Throw (CastError id).

(** The update [{ $set: body }] on a document. *)
Definition apply_update (b : Body) (u : User) : User :=
  let or_old (v : option string) (old : string) :=
    match v with Some s => s | None => old end in
  let or_old_opt (v old : option string) :=
    match v with Some s => Some s | None => old end in
  mkUser (_id u)
         (or_old (b_name b) (name u))
         (or_old (b_username b) (username u))
         (or_old (b_email b) (email u))
         (match b_role b with
          | Some s => match role_of_string s with Some r => r | None => role u end
          | None => role u
          end)
         (or_old (b_password b) (password u))
         (or_old_opt (b_phone b) (phone u))
         (or_old_opt (b_address b) (address u))
         (createdAt u).

Definition touched (b : Body) : list string :=
  filter (fun p => match body_get p b with Some _ => true | None => false end)
         body_paths.

(** [User.findByIdAndUpdate(id, body, { new: true, runValidators: true })]:
    the validators of the paths in the update run; the unique indexes are
    checked against the other documents; the [save] hooks are not the
    update's and do not run.  The document returned is the updated one, as
    a query loads it. *)
Definition findByIdAndUpdate (id : string) (b : Body) (db : Db)
  : Exn (option Doc * Db) :=
  if negb (isValidObjectId id) then Throw (CastError id)
  else
    let b := apply_setters b in
    match validation_errors (touched b) b with
    | (_ :: _) as errs => Throw (ValidationError errs)
    | [] =>
        match find (fun u => _id u =? id) db with
        | None => Ok (None, db)
        | Some u =>
            let u' := apply_update b u in
            if existsb (fun v => negb (_id v =? id)
                                 && ((username v =? username u')
                                     || (email v =? email u'))) db
            then Throw E11000
            else Ok (Some (mkDoc u' default_fields),
                     map (fun v => if _id v =? id then u' else v) db)
        end
    end.

(** [User.findByIdAndDelete(id)] *)
Definition findByIdAndDelete (id : string) (db : Db) : Exn (option Doc * Db) :=
  if negb (isValidObjectId id) then Throw (CastError id)
  else
    match find (fun u => _id u =? id) db with
    | None => Ok (None, db)
    | Some u => Ok (Some (mkDoc u default_fields),
                    filter (fun v => negb (_id v =? id)) db)
    end.

(** [User.countDocuments(queryObj)] *)
Definition countDocuments (queryObj : list (string * string)) (db : Db) : Z :=
  Z.of_nat (List.length (filter (filter_matches queryObj) db)).

(** [User.find(queryObj).select(sel).sort(sortBy).skip(n).limit(m)] *)
Definition find_users (queryObj : list (string * string)) (sel : string)
           (sortBy : list (string * Z)) (skip limit : Z) (db : Db)
  : Exn (list Doc) :=
  fields <- select sel ;;
  us <- skip_limit skip limit (sort_docs sortBy (filter (filter_matches queryObj) db)) ;;
  Ok (map (fun u => mkDoc u fields) us).

(** [UserSchema.methods.matchPassword]: [bcrypt.compare] of the candidate
    with [this.password]; bcryptjs rejects an argument that is not a
    string. *)
Definition matchPassword (d : Doc) (enteredPassword : string) : Exn bool :=
  match doc_password d with
  | Some h => Ok (bcrypt_compare enteredPassword h)
  | None => Throw (Error "Illegal arguments: string, undefined")
  end.

(** [UserSchema.methods.getSignedJwtToken] *)
Definition getSignedJwtToken (env : Env) (w : World) (d : Doc) : Exn string :=
  match JWT_SECRET env with
  | Some secret =>
      if JS.truthy (Some secret)
      then jwt_sign (_id (doc_user d)) secret (JWT_EXPIRE env) (now w)
      else Throw (Error "JWT_SECRET is not defined in environment variables")
  | None => Throw (Error "JWT_SECRET is not defined in environment variables")
  end.

End UserModel.

(* ================================================================== *)
(** * middleware/error.ts *)
(* ================================================================== *)

(** [errorHandler]: the three known shapes, tested one after the other
    (a later one replaces an earlier one), then the response. *)
Definition errorHandler (err : JsError) : Response :=
  let error := (err_message err, err_status err) in
  let error :=
    if err_name err =? "CastError" then ("Resource not found", Some 404%Z) else error in
  let error :=
    match err_code err with
    | Some c => if (c =? 11000)%Z then ("Duplicate field value entered", Some 400%Z)
                else error
    | None => error
    end in
  let error :=
    match err_errors err with
    | Some errs =>
        if err_name err =? "ValidationError"
        then (JS.join ", " (map snd errs), Some 400%Z)
        else error
    | None => error
    end in
  mkResponse (JS.num_or (snd error) 500)
             (JObj [("success", JBool false);
                    ("error", JStr (JS.or_else (Some (fst error)) "Server Error"))]).

(** What the client receives at the end of the chain: the response sent,
    or the error handler's for [next(err)].  A chain that ends on [next()]
    falls to Express's 404. *)
Definition finish (o : Outcome) : Response :=
  match o with
  | Responded r => r
  | NextErr e => errorHandler e
  | Next _ => mkResponse 404 JNull
  end.

(* ================================================================== *)
(** * middleware/auth.ts *)
(* ================================================================== *)

Definition message_body (msg : string) : Json :=
  JObj [("success", JBool false); ("message", JStr msg)].

Definition not_authorized : Response :=
  mkResponse 401 (message_body "Not authorized to access this route").

Section Auth.
Context {bc : Bcrypt} {jw : Jws} {mg : Mongo}.

(** The token [protect] takes from the header: the second piece of the
    header split at spaces, when the header starts with [Bearer]. *)
Definition bearer_token (auth : option string) : option string :=
  match auth with
  | Some a =>
      if JS.truthy (Some a) && JS.startsWith a "Bearer"
      then nth_error (JS.split " " a) 1
      else None
  | None => None
  end.

(** The first two statements of the [try] block of [protect]: the guard
    on the secret and [jwt.verify]. *)
Definition verify_token (env : Env) (w : World) (token : string) : Exn Claims :=
  match JWT_SECRET env with
  | Some secret =>
      if JS.truthy (Some secret)
      then jwt_verify token secret (now w)
      else Throw (Error "JWT_SECRET is not defined in environment variables")
  | None => Throw (Error "JWT_SECRET is not defined in environment variables")
  end.

(** [protect] *)
Definition protect (env : Env) (w : World) (db : Db) (req : Request) : Outcome :=
  match bearer_token (authorization req) with
  | Some token =>
      if negb (JS.truthy (Some token)) then Responded not_authorized
      else
        match (decoded <- verify_token env w token ;;
               findById (claim_id decoded) db) with
        | Ok (Some d) => Next (set_user req (doc_user d))
        | Ok None => Responded (mkResponse 401 (message_body "User not found"))
        | Throw _ => Responded not_authorized
        end
  | None => Responded not_authorized
  end.

(** [authorize(...roles)] *)
Definition authorize (roles : list string) (req : Request) : Outcome :=
  match user req with
  | Some u =>
      if negb (JS.includes roles (role_name (role u)))
      then Responded (mkResponse 403 (message_body
             ("User role " ++ role_name (role u)
              ++ " is not authorized to access this route")))
      else Next req
  | None =>
      Responded (mkResponse 403 (message_body
        ("User role " ++ "undefined" ++ " is not authorized to access this route")))
  end.

End Auth.

(* ================================================================== *)
(** * Handlers and routers *)
(* ================================================================== *)

(** A handler, or a chain of middleware that ends in one: from the store
    and the request to the new store and what was done with the request. *)
Definition Handler : Type := Db -> Request -> Db * Outcome.

(** [router.use(mw)] before [h]: [h] runs when [mw] calls [next()], on the
    request as [mw] left it. *)
Definition use (mw : Db -> Request -> Outcome) (h : Handler) : Handler :=
  fun db req =>
    match mw db req with
    | Next req' => h db req'
    | o => (db, o)
    end.

(** The [try { ... } catch (err) { next(err) }] of the handlers that do not
    write to the store. *)
Definition try_next (db : Db) (m : Exn Response) : Db * Outcome :=
  match m with
  | Ok r => (db, Responded r)
  | Throw e => (db, NextErr e)
  end.

Section Controllers.
Context {bc : Bcrypt} {jw : Jws} {mg : Mongo}.

(** ** controllers/auth.ts *)

(** [sendTokenResponse] *)
Definition sendTokenResponse (env : Env) (w : World) (d : Doc) (statusCode : Z)
  : Exn Response :=
  token <- getSignedJwtToken env w d ;;
  Ok (mkResponse statusCode (JObj [("success", JBool true); ("token", JStr token)])).

(** [register] *)
Definition register (env : Env) (w : World) : Handler :=
  fun db req =>
    let b := req_body req in
    match create (mkBody (b_name b) (b_username b) (b_email b) (b_password b)
                         (b_role b) (b_phone b) (b_address b)) w db with
    | Ok (d, db') => try_next db' (sendTokenResponse env w d 201)
    | Throw e => (db, NextErr e)
    end.

Definition invalid_credentials : Response :=
  mkResponse 401 (message_body "Invalid credentials").

(** The query [login] builds: by email when there is one, else by
    username. *)
Definition login_query (email username : option string) : list (string * string) :=
  if JS.truthy email then [("email", value email)]
  else if JS.truthy username then [("username", value username)]
  else [].

(** [login] *)
Definition login (env : Env) (w : World) : Handler :=
  fun db req =>
    let email := b_email (req_body req) in
    let username := b_username (req_body req) in
    let password := b_password (req_body req) in
    if (negb (JS.truthy email) && negb (JS.truthy username)) || negb (JS.truthy password)
    then (db, Responded (mkResponse 400 (message_body
                "Please provide an email or username and password")))
    else
      try_next db
        (found <- findOne (login_query email username) "+password" db ;;
         match found with
         | None => Ok invalid_credentials
         | Some d =>
             isMatch <- matchPassword d (value password) ;;
             if negb isMatch then Ok invalid_credentials
             else sendTokenResponse env w d 200
         end).

Definition data_body (data : Json) : Json :=
  JObj [("success", JBool true); ("data", data)].

Definition json_of_doc (d : option Doc) : Json :=
  match d with Some d => toJSON d | None => JNull end.

(** [getMe] *)
Definition getMe : Handler :=
  fun db req =>
    match user req with
    | None => (db, Responded not_authorized)
    | Some u =>
        try_next db
          (found <- findById (_id u) db ;;
           Ok (mkResponse 200 (data_body (json_of_doc found))))
    end.

(** [logout] *)
Definition logout : Handler :=
  fun db _ => (db, Responded (mkResponse 200 (data_body (JObj [])))).

(** ** controllers/users.ts *)

Definition excludedParams : list string := ["page"; "limit"; "sort"; "fields"].

(** [queryObj]: a case-insensitive [$regex] filter for every query
    parameter that is not excluded. *)
Definition build_queryObj (q : list (string * string)) : list (string * string) :=
  fold_left (fun queryObj kv =>
               if negb (JS.includes excludedParams (fst kv))
               then obj_set (fst kv) (snd kv) queryObj
               else queryObj) q [].

(** [field.substring(1)] *)
Definition substring1 (s : string) : string :=
  match s with String _ r => r | EmptyString => EmptyString end.

(** [sortBy] *)
Definition build_sortBy (sort : option string) : list (string * Z) :=
  if JS.truthy sort then
    fold_left (fun sortBy field =>
                 if JS.startsWith field "-"
                 then obj_set (substring1 field) (-1)%Z sortBy
                 else obj_set field 1%Z sortBy)
              (JS.split "," (value sort)) []
  else [("name", 1%Z)].

(** [select] *)
Definition build_select (fields : option string) : string :=
  if JS.truthy fields then JS.join " " (JS.split "," (value fields)) else "".

(** [Math.ceil(a / b)] on integers, [b] not zero. *)
Definition ceil_div (a b : Z) : Z := (- ((- a) / b))%Z.

Definition page_json (page limit : Z) : Json :=
  JObj [("page", JNum page); ("limit", JNum limit)].

(** [getUsers] *)
Definition getUsers : Handler :=
  fun db req =>
    let queryObj := build_queryObj (req_query req) in
    let page := JS.num_or (JS.parseInt (query_get "page" (req_query req))) 1 in
    let limit := JS.num_or (JS.parseInt (query_get "limit" (req_query req))) 10 in
    let startIndex := ((page - 1) * limit)%Z in
    let endIndex := (page * limit)%Z in
    let total := countDocuments queryObj db in
    let sortBy := build_sortBy (query_get "sort" (req_query req)) in
    let select := build_select (query_get "fields" (req_query req)) in
    try_next db
      (users <- find_users queryObj select sortBy startIndex limit db ;;
       let pagination :=
         ((if (endIndex <? total)%Z then [("next", page_json (page + 1) limit)] else [])
          ++ (if (0 <? startIndex)%Z then [("prev", page_json (page - 1) limit)] else []))%list in
       Ok (mkResponse 200
             (JObj [("success", JBool true);
                    ("count", JNum (Z.of_nat (List.length users)));
                    ("pagination", JObj pagination);
                    ("totalPages", JNum (ceil_div total limit));
                    ("currentPage", JNum page);
                    ("data", JArr (map toJSON users))]))).

Definition user_not_found (id : string) : Response :=
  mkResponse 404 (message_body ("User not found with id of " ++ id)).

(** [getUser] *)
Definition getUser : Handler :=
  fun db req =>
    try_next db
      (found <- findById (params_id req) db ;;
       match found with
       | None => Ok (user_not_found (params_id req))
       | Some d => Ok (mkResponse 200 (data_body (toJSON d)))
       end).

(** [createUser]: [User.create(req.body)], on a body that is an object
    with the seven paths of [Body]. *)
Definition createUser (w : World) : Handler :=
  fun db req =>
    match create (req_body req) w db with
    | Ok (d, db') => (db', Responded (mkResponse 201 (data_body (toJSON d))))
    | Throw e => (db, NextErr e)
    end.

(** [updateUser]: [findByIdAndUpdate(req.params.id, req.body, ...)], on a
    body with the seven paths of [Body]. *)
Definition updateUser : Handler :=
  fun db req =>
    match findByIdAndUpdate (params_id req) (req_body req) db with
    | Ok (None, db') => (db', Responded (user_not_found (params_id req)))
    | Ok (Some d, db') => (db', Responded (mkResponse 200 (data_body (toJSON d))))
    | Throw e => (db, NextErr e)
    end.

(** [deleteUser] *)
Definition deleteUser : Handler :=
  fun db req =>
    match findByIdAndDelete (params_id req) db with
    | Ok (None, db') => (db', Responded (user_not_found (params_id req)))
    | Ok (Some _, db') => (db', Responded (mkResponse 200 (data_body (JObj []))))
    | Throw e => (db, NextErr e)
    end.

(** ** routes/users.ts *)

(** The routes of the users router. *)
Inductive UsersRoute : Type :=
| GET_users       (* GET    /api/v1/users     *)
| GET_user        (* GET    /api/v1/users/:id *)
| POST_users      (* POST   /api/v1/users     *)
| PUT_user        (* PUT    /api/v1/users/:id *)
| DELETE_user.    (* DELETE /api/v1/users/:id *)

Definition users_handler (w : World) (route : UsersRoute) : Handler :=
  match route with
  | GET_users => getUsers
  | GET_user => getUser
  | POST_users => createUser w
  | PUT_user => updateUser
  | DELETE_user => deleteUser
  end.

(** [router.use(protect); router.use(authorize('administrator'));] then
    the route's handler. *)
Definition users_router (env : Env) (w : World) (route : UsersRoute) : Handler :=
  use (protect env w)
      (use (fun _ => authorize ["administrator"]) (users_handler w route)).

End Controllers.

(* ================================================================== *)
(** * server.ts *)
(* ================================================================== *)

(** The state of the process after the start-up script has run. *)
Inductive Process : Type :=
| Listening (port : string)
| Exited (code : Z).

(** The start-up script: the environment is loaded ([dotenv.config()]),
    the application is assembled and [app.listen(PORT)] is called with
    [process.env.PORT || 5000].  No statement of the script reads
    [JWT_SECRET].  [connectDB()], of config/db.ts, opens the connection to
    the database; the script calls it and does not await it, and the
    connection is outside this model. *)
Definition server_start (env : Env) : Process :=
  Listening (JS.or_else (PORT env) "5000").

(** A request served by the process: nothing is served once it has exited. *)
Definition serve (p : Process) (h : Handler) (db : Db) (req : Request)
  : option (Db * Response) :=
  match p with
  | Listening _ => let '(db', o) := h db req in Some (db', finish o)
  | Exited _ => None
  end.

(* ================================================================== *)
(** * middleware/security.ts: the API key gate and the size limit *)
(* ================================================================== *)

(** What a gate of the security middleware does: it calls [next()] or it
    sends a response. *)
Inductive Gate : Type :=
| Pass
| Reply (r : Response).

Definition error_body (msg : string) : Json :=
  JObj [("success", JBool false); ("error", JStr msg)].

(** [publicEndpoints] of [apiKeyAuth] *)
Definition publicEndpoints : list string :=
  ["/api/v1/health"; "/api-docs"; "/api/v1/auth/register"; "/api/v1/auth/login"].

(** [process.env.API_KEYS?.split(',') || []] *)
Definition validApiKeys (api_keys : option string) : list string :=
  match api_keys with
  | Some s => JS.split "," s
  | None => []
  end.

(** [apiKeyAuth], on [process.env.API_KEYS], [req.path] and the value of
    the [X-API-Key] header. *)
Definition apiKeyAuth (api_keys : option string) (path : string)
           (apiKey : option string) : Gate :=
  if existsb (fun endpoint => JS.startsWith path endpoint) publicEndpoints
  then Pass
  else
    match validApiKeys api_keys with
    | (_ :: _) as keys =>
        if negb (JS.truthy apiKey)
        then Reply (mkResponse 401 (error_body "API key is required"))
        else if negb (JS.includes keys (value apiKey))
             then Reply (mkResponse 401 (error_body "Invalid API key"))
             else Pass
    | [] => Pass
    end.

(** [String(n)] of a number; [None] is [NaN]. *)
Definition number_string (n : option Z) : string :=
  match n with
  | Some k => NilZero.string_of_int (Z.to_int k)
  | None => "NaN"
  end.

(** [a > b] on numbers: false when one of them is [NaN].  The comparison
    of the integers is JavaScript's when both are below 2^53 in absolute
    value. *)
Definition number_gt (a b : option Z) : bool :=
  match a, b with
  | Some x, Some y => (y <? x)%Z
  | _, _ => false
  end.

(** [SECURITY_CONFIG.MAX_FILE_UPLOAD]:
    [parseInt(process.env.MAX_FILE_UPLOAD || '1000000')] *)
Definition MAX_FILE_UPLOAD (max_file_upload : option string) : option Z :=
  JS.parseInt (Some (JS.or_else max_file_upload "1000000")).

(** [requestSizeLimit], on [process.env.MAX_FILE_UPLOAD] and the value of
    the [content-length] header. *)
Definition requestSizeLimit (max_file_upload : option string)
           (content_length : option string) : Gate :=
  let contentLength := JS.parseInt (Some (JS.or_else content_length "0")) in
  if number_gt contentLength (MAX_FILE_UPLOAD max_file_upload)
  then Reply (mkResponse 413 (error_body
                ("Request entity too large. Maximum size is "
                 ++ number_string (MAX_FILE_UPLOAD max_file_upload) ++ " bytes")))
  else Pass.

(* ================================================================== *)
(** * seeder/adminSeeder.ts *)
(* ================================================================== *)

Definition admin_email : string := "admin@ekonsulta.com".

(** The attributes of the administrator the seeder creates. *)
Definition admin_body : Body :=
  mkBody (Some "Administrator") (Some "admin_konsulta") (Some admin_email)
         (Some "admin123") (Some "administrator") (Some "09123456789")
         (Some "eKonsulta Admin Office").

Section Seeder.
Context {bc : Bcrypt} {jw : Jws} {mg : Mongo}.

(** [createAdminUser]: the store it leaves and the exit code of the
    process. *)
Definition createAdminUser (w : World) (db : Db) : Db * Z :=
  match findOne [("email", admin_email)] "" db with
  | Ok (Some _) => (db, 0%Z)
  | Ok None =>
      match create admin_body w db with
      | Ok (_, db') => (db', 0%Z)
      | Throw _ => (db, 1%Z)
      end
  | Throw _ => (db, 1%Z)
  end.

End Seeder.

(* ================================================================== *)
(** * controllers/auth.ts: [login] on a password of any JSON type *)
(* ================================================================== *)

(** [typeof v] of a JSON value, or of [undefined]. *)
Definition typeof (v : option Json) : string :=
  match v with
  | None => "undefined"
  | Some (JBool _) => "boolean"
  | Some (JNum _) => "number"
  | Some (JStr _) => "string"
  | Some JNull | Some (JArr _) | Some (JObj _) => "object"
  end.

(** Truthiness of a JSON value or [undefined]: [undefined], [null],
    [false], [0] and the empty string are falsy. *)
Definition json_truthy (v : option Json) : bool :=
  match v with
  | None | Some JNull => false
  | Some (JBool b) => b
  | Some (JNum n) => negb (n =? 0)%Z
  | Some (JStr s) => negb (s =? "")
  | Some (JArr _) | Some (JObj _) => true
  end.

Section LoginAny.
Context {bc : Bcrypt} {jw : Jws} {mg : Mongo}.

(** [matchPassword] on an entered password of any type:
    [bcrypt.compare(s, hash)] of bcryptjs rejects with
    ["Illegal arguments: " + typeof s + ", " + typeof hash] unless both are
    strings. *)
Definition matchPassword_any (d : Doc) (enteredPassword : option Json) : Exn bool :=
  match enteredPassword, doc_password d with
  | Some (JStr p), Some h => Ok (bcrypt_compare p h)
  | v, Some _ => Throw (Error ("Illegal arguments: " ++ typeof v ++ ", string"))
  | v, None => Throw (Error ("Illegal arguments: " ++ typeof v ++ ", undefined"))
  end.

(** [login], on the email and the username of the body (strings, or
    absent) and its password, a JSON value of any type or absent. *)
Definition login_any (env : Env) (w : World) (db : Db)
           (email username : option string) (password : option Json) : Db * Outcome :=
  if (negb (JS.truthy email) && negb (JS.truthy username)) || negb (json_truthy password)
  then (db, Responded (mkResponse 400 (message_body
              "Please provide an email or username and password")))
  else
    try_next db
      (found <- findOne (login_query email username) "+password" db ;;
       match found with
       | None => Ok invalid_credentials
       | Some d =>
           isMatch <- matchPassword_any d password ;;
           if negb isMatch then Ok invalid_credentials
           else sendTokenResponse env w d 200
       end).

End LoginAny.

(* ================================================================== *)
(** * Notions for the properties of the store and of the tokens *)
(* ================================================================== *)

(** The unique indexes hold: no two documents share an [_id], a
    [username] or an [email]. *)
Definition unique_store (db : Db) : Prop :=
  NoDup (map _id db) /\ NoDup (map username db) /\ NoDup (map email db).

(** A string with no space in it. *)
Definition no_space (s : string) : Prop :=
  forall c, In c (list_ascii_of_string s) -> c <> " "%char.

(** The claims of a token issued at clock [t] (milliseconds) for [id],
    with a duration of [dur] milliseconds. *)
Definition issued_claims (id : string) (t dur : Z) : Claims :=
  mkClaims id (t / 1000) (Some (t / 1000 + dur / 1000)%Z).

(** A request with the given Authorization header. *)
Definition set_authorization (req : Request) (a : string) : Request :=
  mkRequest (Some a) (req_body req) (req_query req) (params_id req) (user req).

Definition set_params_id (req : Request) (id : string) : Request :=
  mkRequest (authorization req) (req_body req) (req_query req) id (user req).

(** The document [User.create] stores for a valid body. *)
Definition created_user {bc : Bcrypt} (b : Body) (w : World) : User :=
  mkUser (fresh_id w)
         (JS.trim (value (b_name b)))
         (JS.trim (value (b_username b)))
         (value (b_email b))
         (match b_role b with
          | Some s => match role_of_string s with Some r => r | None => client end
          | None => client
          end)
         (bcrypt_hash (value (b_password b)) (salt w))
         (b_phone b) (b_address b) (now w).

(** A string of ASCII characters. *)
Definition is_ascii (s : string) : bool :=
  forallb (fun c => (nat_of_ascii c <? 128)%nat) (list_ascii_of_string s).

(** A value that is absent or an ASCII string. *)
Definition ascii_value (v : option string) : bool :=
  match v with Some s => is_ascii s | None => true end.

(** A body whose values are ASCII strings. *)
Definition ascii_body (b : Body) : bool :=
  ascii_value (b_name b) && ascii_value (b_username b) && ascii_value (b_email b)
  && ascii_value (b_password b) && ascii_value (b_role b) && ascii_value (b_phone b)
  && ascii_value (b_address b).

Definition is_lower_hex (c : ascii) : bool :=
  let n := nat_of_ascii c in
  ((48 <=? n) && (n <=? 57))%nat || ((97 <=? n) && (n <=? 102))%nat.

(** An id as [ObjectId.toString()] gives it: 24 digits of [0]-[9],
    [a]-[f]. *)
Definition canonical_id (id : string) : bool :=
  (String.length id =? 24)%nat && forallb is_lower_hex (list_ascii_of_string id).

(** An integer that JavaScript's numbers hold exactly, with its
    neighbours. *)
Definition safe_integer (n : Z) : Prop := (Z.abs n < 2 ^ 53)%Z.

(** A number read by [parseInt] that is [NaN] or a safe integer. *)
Definition safe_number (n : option Z) : Prop :=
  match n with Some k => safe_integer k | None => True end.

Section TokenNotions.
Context {jw : Jws}.

(** The environment has a signing secret and a duration that the timespan
    parser reads as [dur] milliseconds. *)
Definition configured (env : Env) (secret e : string) (dur : Z) : Prop :=
  JWT_SECRET env = Some secret /\ secret <> ""
  /\ JWT_EXPIRE env = Some e /\ e <> ""
  /\ ms e = Some dur.

(** The signature layer verifies the token it makes of [c] under [secret]
    and gives the claims back; the token is a non-empty string with no
    space in it. *)
Definition well_signed (c : Claims) (secret : string) : Prop :=
  jws_verify (jws_sign c secret) secret = Some c
  /\ jws_sign c secret <> ""
  /\ no_space (jws_sign c secret).

End TokenNotions.

(* ================================================================== *)
(** * The notions the properties are stated with *)
(* ================================================================== *)

Section Notions.
Context {bc : Bcrypt} {jw : Jws} {mg : Mongo}.

(** The header carries no bearer token: [protect] finds no token in it, or
    an empty one. *)
Definition no_bearer_token (auth : option string) : Prop :=
  JS.truthy (bearer_token auth) = false.

(** The body of a request with another username. *)
Definition set_username (b : Body) (v : option string) : Body :=
  mkBody (b_name b) v (b_email b) (b_password b) (b_role b) (b_phone b) (b_address b).

Definition set_body (req : Request) (b : Body) : Request :=
  mkRequest (authorization req) b (req_query req) (params_id req) (user req).

(** The identifier of a login request designates no identity of the store. *)
Definition unknown_identifier (db : Db) (b : Body) : Prop :=
  forall u, In u db -> satisfies (login_query (b_email b) (b_username b)) u = false.

(** The identifier of a login request designates [u], and the password of
    the request is not [u]'s. *)
Definition wrong_password (db : Db) (b : Body) (u : User) : Prop :=
  find (satisfies (login_query (b_email b) (b_username b))) db = Some u
  /\ bcrypt_compare (value (b_password b)) (password u) = false.

(** A login request with an identifier and a password. *)
Definition well_formed_login (b : Body) : Prop :=
  (JS.truthy (b_email b) = true \/ JS.truthy (b_username b) = true)
  /\ JS.truthy (b_password b) = true.

(** A stored username is as the [trim] setter leaves it. *)
Definition trimmed (u : User) : Prop := JS.trim (username u) = username u.

Definition secret_missing : string :=
  "JWT_SECRET is not defined in environment variables".

(** The claim of C6: with no signing secret the process does not get to
    listen. *)
Definition fails_fast_at_startup (env : Env) : Prop :=
  exists code, server_start env = Exited code.

End Notions.

(* ================================================================== *)
(** * Small stand-ins for the packages, to run the model on examples *)
(* ================================================================== *)

Module Reference.

(** A keyed digest: a polynomial checksum of the characters. *)
Fixpoint checksum (acc : Z) (s : string) : Z :=
  match s with
  | EmptyString => acc
  | String c r => checksum ((acc * 131 + Z.of_nat (nat_of_ascii c)) mod 1000003)%Z r
  end.

Fixpoint decimal_aux (fuel : nat) (n : Z) (acc : string) : string :=
  match fuel with
  | O => acc
  | S f =>
      let acc' := String (ascii_of_nat (48 + Z.to_nat (n mod 10))) acc in
      if (n <? 10)%Z then acc' else decimal_aux f (n / 10)%Z acc'
  end.

(** The decimal digits of a natural number. *)
Definition decimal (n : Z) : string := decimal_aux 40 (Z.abs n) "".

Definition digest (s : string) : string := decimal (checksum 7 s).

(** A hash keeps its salt in front, as a bcrypt hash does. *)
#[export] Instance bcrypt : Bcrypt := {
  bcrypt_hash p s := s ++ "." ++ digest (s ++ p);
  bcrypt_compare p h :=
    match JS.split "." h with
    | [s; d] => d =? digest (s ++ p)
    | _ => false
    end
}.

Fixpoint drop_digits (s : string) : string :=
  match s with
  | EmptyString => EmptyString
  | String c r => match JS.digit_of 10 c with Some _ => drop_digits r | None => s end
  end.

(** A token is its claims followed by a digest keyed with the secret. *)
Definition payload (c : Claims) : string :=
  claim_id c ++ "." ++ decimal (claim_iat c) ++ "."
  ++ match claim_exp c with Some e => decimal e | None => "" end.

#[export] Instance jws : Jws := {
  jws_sign c secret := payload c ++ "." ++ digest (secret ++ payload c);
  jws_verify token secret :=
    match JS.split "." token with
    | [id; iat; exp; sig] =>
        match JS.digits 10 None iat with
        | Some i =>
            let c := mkClaims id i (JS.digits 10 None exp) in
            if sig =? digest (secret ++ payload c) then Some c else None
        | None => None
        end
    | _ => None
    end;
  ms s :=
    match JS.digits 10 None s with
    | Some n =>
        let unit := drop_digits s in
        if (unit =? "") || (unit =? "ms") then Some n
        else if unit =? "s" then Some (n * 1000)%Z
        else if unit =? "m" then Some (n * 60000)%Z
        else if unit =? "h" then Some (n * 3600000)%Z
        else if unit =? "d" then Some (n * 86400000)%Z
        else if unit =? "w" then Some (n * 604800000)%Z
        else if unit =? "y" then Some (n * 31557600000)%Z
        else None
    | None => None
    end
}.

Definition lower (c : ascii) : ascii :=
  let n := nat_of_ascii c in
  if ((65 <=? n) && (n <=? 90))%nat then ascii_of_nat (n + 32) else c.

Definition lowercase (s : string) : string :=
  string_of_list_ascii (map lower (list_ascii_of_string s)).

Definition contains (pat s : string) : bool :=
  match String.index 0 pat s with Some _ => true | None => pat =? "" end.

Definition json_compare (a b : option Json) : comparison :=
  match a, b with
  | Some (JStr x), Some (JStr y) => String.compare x y
  | Some (JNum x), Some (JNum y) => Z.compare x y
  | None, Some _ => Lt
  | Some _, None => Gt
  | _, _ => Eq
  end.

Fixpoint before (keys : list (string * Z)) (a b : User) : bool :=
  match keys with
  | [] => true
  | (k, dir) :: r =>
      match json_compare (path_value k a) (path_value k b) with
      | Eq => before r a b
      | Lt => (0 <? dir)%Z
      | Gt => (dir <? 0)%Z
      end
  end.

Fixpoint insert_sorted (keys : list (string * Z)) (u : User) (l : list User) : list User :=
  match l with
  | [] => [u]
  | v :: r => if before keys v u then v :: insert_sorted keys u r else u :: l
  end.

(** A pattern is read as a literal; the sort is a stable insertion sort;
    a negative [skip] is an error of the server and a negative [limit] is
    its absolute value. *)
#[export] Instance mongo : Mongo := {
  filter_matches q u :=
    forallb (fun kv => match path_value (fst kv) u with
                       | Some (JStr s) => contains (lowercase (snd kv)) (lowercase s)
                       | _ => false
                       end) q;
  sort_docs keys l := fold_left (fun acc u => insert_sorted keys u acc) l [];
  skip_limit skip limit l :=
    if (skip <? 0)%Z
    then Throw (MongoServerError "Skip value must be non-negative" None)
    else Ok (firstn (Z.to_nat (Z.abs limit)) (skipn (Z.to_nat skip) l));
  email_match s :=
    match JS.split "@" s with
    | [local; domain] =>
        negb (local =? "") && (2 <=? List.length (JS.split "." domain))%nat
        && forallb (fun piece => negb (piece =? "")) (JS.split "." domain)
    | _ => false
    end
}.

(** ** Sample data *)

Definition secret_env : Env := mkEnv (Some "s3cret") (Some "30d") None None.
Definition no_secret_env : Env := mkEnv None (Some "30d") None None.
Definition no_expire_env : Env := mkEnv (Some "s3cret") None None None.

Definition world0 : World :=
  mkWorld 1700000000000 "65f000000000000000000003" "saltsaltsaltsaltsaltsa".

Definition alice : User :=
  mkUser "65f000000000000000000001" "Alice" "alice" "alice@example.com"
         administrator (bcrypt_hash "alice-secret" "salt-of-alice") None None 1690000000000.

Definition bob : User :=
  mkUser "65f000000000000000000002" "Bob" "bob" "bob@example.com"
         client (bcrypt_hash "bobs-secret" "salt-of-bob") (Some "0912") None 1690000000001.

Definition db0 : Db := [alice; bob].

Definition blank_request : Request := mkRequest None empty_body [] "" None.

Definition with_authorization (a : string) : Request :=
  mkRequest (Some a) empty_body [] "" None.

Definition with_body (b : Body) : Request := mkRequest None b [] "" None.

Definition login_body (email username password : option string) : Body :=
  mkBody None username email password None None None.

(** A token of the sample signer for a user, issued at [world0]. *)
Definition token_of (u : User) : string :=
  match getSignedJwtToken secret_env world0 (mkDoc u default_fields) with
  | Ok t => t
  | Throw _ => ""
  end.

Definition bearer (u : User) : Request :=
  with_authorization ("Bearer " ++ token_of u).

(** ** Sample requests *)

(** Two login requests on the sample store: an email of nobody, and
    Alice's email with a password that is not hers. *)
Definition login_nobody : Request :=
  with_body (login_body (Some "nobody@example.com") None (Some "alice-secret")).

Definition login_alice_wrong : Request :=
  with_body (login_body (Some "alice@example.com") None (Some "not-her-secret")).

(** Alice's email with Bob's username and Bob's password. *)
Definition login_alice_as_bob : Request :=
  with_body (login_body (Some "alice@example.com") (Some "bob") (Some "bobs-secret")).

(** An identity that is in no store any more. *)
Definition carol : User :=
  mkUser "65f000000000000000000009" "Carol" "carol" "carol@example.com"
         employee (bcrypt_hash "carols-secret" "salt-of-carol") None None 1690000000002.

(** A registration with Alice's username and an email of its own. *)
Definition register_second_alice : Request :=
  with_body (mkBody (Some "Eve") (Some "alice") (Some "eve@example.com")
                    (Some "eves-secret") None None None).

(** [GET /api/v1/users?fields=%2Bpassword] with an administrator's token. *)
Definition list_with_password : Request :=
  mkRequest (Some ("Bearer " ++ token_of alice)) empty_body
            [("fields", "+password")] "" None.

(** [POST /api/v1/users] with an administrator's token. *)
Definition create_dave : Request :=
  mkRequest (Some ("Bearer " ++ token_of alice))
            (mkBody (Some "Dave") (Some "dave") (Some "dave@example.com")
                    (Some "daves-secret") None None None)
            [] "" None.

(** [PUT /api/v1/users/<bob>] with [{password: "newsecret"}]. *)
Definition update_bob_password : Request :=
  mkRequest None (mkBody None None None (Some "newsecret") None None None)
            [] (_id bob) None.

End Reference.

(* ================================================================== *)
(** * More sample data *)
(* ================================================================== *)

Module Samples.
Import Reference.

(** One second after [world0]. *)
Definition world1 : World :=
  mkWorld 1700000001000 "65f000000000000000000004" "pepperpepperpepperpepp".

(** Thirty-one days after [world0]. *)
Definition world_later : World :=
  mkWorld 1702678400000 "65f000000000000000000005" "pepperpepperpepperpepp".

(** ["30d"] in milliseconds. *)
Definition thirty_days : Z := 2592000000.

Definition dave_body : Body :=
  mkBody (Some " Dave ") (Some "dave") (Some "dave@example.com")
         (Some "daves-secret") None None None.

Definition register_dave : Request := with_body dave_body.

Definition login_alice : Request :=
  with_body (login_body (Some "alice@example.com") None (Some "alice-secret")).

(** [GET /api/v1/users?fields=name,email&page=2&limit=1] *)
Definition list_names : Request :=
  mkRequest None empty_body [("fields", "name,email"); ("page", "2"); ("limit", "1")]
            "" None.

(** The answer of a handler on the sample store. *)
Definition answer (h : Handler) (req : Request) : Response :=
  finish (snd (h db0 req)).

Definition with_id (id : string) : Request := mkRequest None empty_body [] id None.

Definition delete_bob : Request := with_id (_id bob).

Definition update_unknown : Request :=
  mkRequest None (mkBody None None None None None (Some "0999") None) []
            "65f00000000000000000000f" None.

Definition rename_bob : Request :=
  mkRequest None (mkBody (Some "Robert") None None None None None None) []
            (_id bob) None.

End Samples.

(* ================================================================== *)
(** * Properties *)
(* ================================================================== *)

(** ** The Authentication Gate *)

Lemma no_header_no_token : no_bearer_token None.
Proof. reflexivity. Qed.

Lemma other_scheme_no_token (a : string) :
  JS.startsWith a "Bearer" = false -> no_bearer_token (Some a).
Proof.
  unfold no_bearer_token, bearer_token. intros ->.
  now rewrite andb_false_r.
Qed.

Lemma bare_scheme_no_token : no_bearer_token (Some "Bearer").
Proof. reflexivity. Qed.

Lemma split_no_separator (sep : ascii) (s : string) :
  (forall c, In c (list_ascii_of_string s) -> c <> sep) ->
  JS.split sep s = [s].
Proof.
  induction s as [|c r IH]; intros Hs; [reflexivity|].
  simpl. destruct (Ascii.eqb_spec c sep) as [->|_].
  - exfalso. apply (Hs sep); [now left | reflexivity].
  - rewrite IH; [reflexivity|]. intros c' Hc'. apply Hs. now right.
Qed.

Lemma split_append (sep : ascii) (s t : string) :
  (forall c, In c (list_ascii_of_string s) -> c <> sep) ->
  JS.split sep (s ++ String sep t) = s :: JS.split sep t.
Proof.
  induction s as [|c r IH]; intros Hs; simpl.
  - now rewrite Ascii.eqb_refl.
  - destruct (Ascii.eqb_spec c sep) as [->|_].
    + exfalso. apply (Hs sep); [now left | reflexivity].
    + rewrite IH; [reflexivity|]. intros c' Hc'. apply Hs. now right.
Qed.

(** A header [Bearer <t>] with a token free of spaces yields [t]. *)
Lemma bearer_token_extracted (t : string) :
  (forall c, In c (list_ascii_of_string t) -> c <> " "%char) ->
  bearer_token (Some ("Bearer " ++ t)) = Some t.
Proof.
  intros Ht. unfold bearer_token.
  change ("Bearer " ++ t) with ("Bearer" ++ String " " t).
  rewrite (split_append " " "Bearer" t).
  - rewrite (split_no_separator " " t Ht). reflexivity.
  - intros c Hc. simpl in Hc.
    repeat (destruct Hc as [<-|Hc]; [discriminate|]). destruct Hc.
Qed.

Section GateProperties.
Context {bc : Bcrypt} {jw : Jws} {mg : Mongo}.

(** What [protect] does with a token that is there. *)
Lemma protect_token (env : Env) (w : World) (db : Db) (req : Request) (token : string) :
  bearer_token (authorization req) = Some token ->
  JS.truthy (Some token) = true ->
  protect env w db req =
    match (decoded <- verify_token env w token ;; findById (claim_id decoded) db) with
    | Ok (Some d) => Next (set_user req (doc_user d))
    | Ok None => Responded (mkResponse 401 (message_body "User not found"))
    | Throw _ => Responded not_authorized
    end.
Proof.
  intros Hb Ht. unfold protect. rewrite Hb, Ht. reflexivity.
Qed.

(** C1.  A request to a protected route whose Authorization header carries
    no bearer token, or whose token fails verification (whatever the error:
    malformed, bad signature, expired), is answered 401 with the message
    "Not authorized to access this route", the same in every case, and the
    handler behind the gate does not run: the store is left as it is and
    the result is the same for every handler. *)
Theorem protect_rejects_unverified
        (env : Env) (w : World) (db : Db) (req : Request) (h : Handler) :
  (no_bearer_token (authorization req)
   \/ exists token e,
        bearer_token (authorization req) = Some token
        /\ verify_token env w token = Throw e) ->
  protect env w db req
  = Responded (mkResponse 401
      (JObj [("success", JBool false);
             ("message", JStr "Not authorized to access this route")]))
  /\ use (protect env w) h db req = (db, protect env w db req).
Proof.
  intros Hreq.
  assert (Hp : protect env w db req = Responded not_authorized).
  { destruct Hreq as [Hno | (token & e & Hb & Hv)].
    - unfold no_bearer_token in Hno. unfold protect.
      destruct (bearer_token (authorization req)) as [t|]; [|reflexivity].
      now rewrite Hno.
    - unfold protect. rewrite Hb.
      destruct (negb (JS.truthy (Some token))); [reflexivity|].
      now rewrite Hv. }
  split; [exact Hp|].
  unfold use. now rewrite Hp.
Qed.

(** The identity [protect] attaches is one of the store. *)
Lemma protect_next (env : Env) (w : World) (db : Db) (req req' : Request) :
  protect env w db req = Next req' ->
  exists u, In u db /\ req' = set_user req u.
Proof.
  unfold protect.
  destruct (bearer_token (authorization req)) as [token|]; [|discriminate].
  destruct (negb (JS.truthy (Some token))); [discriminate|].
  destruct (verify_token env w token) as [c|e]; simpl; [|discriminate].
  unfold findById. destruct (isValidObjectId (claim_id c)); [|discriminate].
  destruct (find (fun u => _id u =? claim_id c) db) as [u|] eqn:Hf; simpl;
    [|discriminate].
  intros [= <-]. exists u. split; [|reflexivity].
  now apply find_some in Hf.
Qed.

(** ** The Authorization Gate *)

Lemma role_name_administrator (r : Role) :
  JS.includes ["administrator"] (role_name r) = true <-> r = administrator.
Proof. destruct r; simpl; split; (reflexivity || discriminate). Qed.

(** C3.  On each route of the users router, a request the Authentication
    Gate has resolved to an identity: when the identity's role is not
    [administrator] the answer is 403 with a message that names that role,
    and the handler does not run (the store is unchanged); when the role is
    [administrator] the route's handler runs on the request. *)
Theorem users_routes_admin_only
        (env : Env) (w : World) (route : UsersRoute) (db : Db)
        (req req' : Request) (u : User) :
  protect env w db req = Next req' ->
  user req' = Some u ->
  (role u <> administrator ->
   users_router env w route db req
   = (db, Responded (mkResponse 403
        (JObj [("success", JBool false);
               ("message", JStr ("User role " ++ role_name (role u)
                                 ++ " is not authorized to access this route"))]))))
  /\ (role u = administrator ->
      users_router env w route db req = users_handler w route db req').
Proof.
  intros Hp Hu. unfold users_router, use. rewrite Hp.
  unfold authorize. rewrite Hu.
  split; intros Hr.
  - destruct (JS.includes ["administrator"] (role_name (role u))) eqn:Hi.
    + apply role_name_administrator in Hi. contradiction.
    + reflexivity.
  - rewrite (proj2 (role_name_administrator (role u)) Hr). reflexivity.
Qed.

End GateProperties.

(** ** The handlers of controllers/auth.ts *)

Lemma find_none_when {A} (p : A -> bool) (l : list A) :
  (forall x, In x l -> p x = false) -> find p l = None.
Proof.
  induction l as [|a l IH]; intros Hl; [reflexivity|].
  simpl. rewrite (Hl a (or_introl eq_refl)).
  apply IH. intros x Hx. apply Hl. now right.
Qed.

Lemma find_extensional {A} (p q : A -> bool) (l : list A) :
  (forall x, p x = q x) -> find p l = find q l.
Proof.
  intros Hpq. induction l as [|a l IH]; [reflexivity|].
  simpl. rewrite Hpq, IH. reflexivity.
Qed.

Lemma select_plus_password : select "+password" = Ok schema_paths.
Proof. reflexivity. Qed.

Lemma select_nothing : select "" = Ok default_fields.
Proof. reflexivity. Qed.

Section HandlerProperties.
Context {bc : Bcrypt} {jw : Jws} {mg : Mongo}.

Lemma login_well_formed (env : Env) (w : World) (db : Db) (req : Request) :
  well_formed_login (req_body req) ->
  login env w db req =
    try_next db
      (match find (satisfies (login_query (b_email (req_body req))
                                          (b_username (req_body req)))) db with
       | None => Ok invalid_credentials
       | Some u =>
           if bcrypt_compare (value (b_password (req_body req))) (password u)
           then sendTokenResponse env w (mkDoc u schema_paths) 200
           else Ok invalid_credentials
       end).
Proof.
  intros [Hid Hpw]. unfold login. rewrite Hpw.
  assert (Hguard : negb (JS.truthy (b_email (req_body req)))
                   && negb (JS.truthy (b_username (req_body req))) = false).
  { destruct Hid as [-> | ->]; [reflexivity | apply andb_false_r]. }
  rewrite Hguard. simpl orb. cbv iota.
  unfold findOne. rewrite select_plus_password. simpl bind.
  destruct (find _ db) as [u|]; simpl; [|reflexivity].
  destruct (bcrypt_compare _ _); reflexivity.
Qed.

(** Two login requests whose values are strings, each with an identifier
    and a password: the identifier of the first designates no identity, the
    identifier of the second designates an identity whose password is not
    the one given.  Both are answered 401 with the body
    [{success: false, message: "Invalid credentials"}], and the store is
    not changed. *)
Lemma login_rejects_wrong_strings
        (env : Env) (w1 w2 : World) (db : Db) (r1 r2 : Request) (u : User) :
  well_formed_login (req_body r1) ->
  well_formed_login (req_body r2) ->
  unknown_identifier db (req_body r1) ->
  wrong_password db (req_body r2) u ->
  login env w1 db r1
  = (db, Responded (mkResponse 401
           (JObj [("success", JBool false); ("message", JStr "Invalid credentials")])))
  /\ login env w2 db r2 = login env w1 db r1.
Proof.
  intros Hw1 Hw2 Hunknown [Hfound Hpw].
  rewrite (login_well_formed env w1 db r1 Hw1), (login_well_formed env w2 db r2 Hw2).
  rewrite (find_none_when _ db Hunknown), Hfound, Hpw.
  split; reflexivity.
Qed.

(** On a body whose password is a string, [login_any] is [login]. *)
Lemma login_any_on_strings (env : Env) (w : World) (db : Db) (req : Request) :
  login_any env w db (b_email (req_body req)) (b_username (req_body req))
            (option_map JStr (b_password (req_body req)))
  = login env w db req.
Proof.
  unfold login_any, login.
  destruct (b_password (req_body req)) as [p|]; simpl option_map.
  - change (json_truthy (Some (JStr p))) with (JS.truthy (Some p)).
    reflexivity.
  - simpl json_truthy. simpl JS.truthy. simpl negb.
    rewrite !orb_true_r. reflexivity.
Qed.

(** C2.  The answers of [login] do tell whether an identifier exists.
    Take a password that is a JSON value other than a string and is truthy
    (a number, say) and two identifiers, each an email or a username: the
    first designates no identity of the store, the second designates one.
    The first request is answered 401 with
    [{success: false, message: "Invalid credentials"}]; on the second
    [bcrypt.compare] rejects, the error goes to the error handler, and the
    answer is 500 with
    [{success: false, error: "Illegal arguments: <type>, string"}].  The two
    answers differ. *)
Theorem login_non_string_password_reveals_identifier
        (env : Env) (w1 w2 : World) (db : Db)
        (email1 username1 email2 username2 : option string)
        (password : option Json) (u : User) :
  JS.truthy email1 = true \/ JS.truthy username1 = true ->
  JS.truthy email2 = true \/ JS.truthy username2 = true ->
  json_truthy password = true ->
  (forall p, password <> Some (JStr p)) ->
  (forall v, In v db -> satisfies (login_query email1 username1) v = false) ->
  find (satisfies (login_query email2 username2)) db = Some u ->
  finish (snd (login_any env w1 db email1 username1 password))
  = mkResponse 401
      (JObj [("success", JBool false); ("message", JStr "Invalid credentials")])
  /\ finish (snd (login_any env w2 db email2 username2 password))
     = mkResponse 500
         (JObj [("success", JBool false);
                ("error", JStr ("Illegal arguments: " ++ typeof password ++ ", string"))])
  /\ finish (snd (login_any env w2 db email2 username2 password))
     <> finish (snd (login_any env w1 db email1 username1 password)).
Proof.
  intros Hid1 Hid2 Hpw Hnot Hunknown Hfound.
  assert (Hg : forall e un, JS.truthy e = true \/ JS.truthy un = true ->
               (negb (JS.truthy e) && negb (JS.truthy un)) || negb (json_truthy password)
               = false).
  { intros e un [-> | ->]; rewrite Hpw; [reflexivity | now rewrite andb_false_r]. }
  assert (H1 : finish (snd (login_any env w1 db email1 username1 password))
               = mkResponse 401 (JObj [("success", JBool false);
                                       ("message", JStr "Invalid credentials")])).
  { unfold login_any. rewrite (Hg _ _ Hid1).
    unfold findOne. rewrite select_plus_password. simpl bind.
    rewrite (find_none_when _ db Hunknown). reflexivity. }
  assert (H2 : finish (snd (login_any env w2 db email2 username2 password))
               = mkResponse 500
                   (JObj [("success", JBool false);
                          ("error", JStr ("Illegal arguments: " ++ typeof password
                                          ++ ", string"))])).
  { unfold login_any. rewrite (Hg _ _ Hid2).
    unfold findOne. rewrite select_plus_password. simpl bind.
    rewrite Hfound. unfold matchPassword_any. simpl doc_password.
    destruct password as [[| b | n | p | l | o]|]; try discriminate Hpw;
      try (exfalso; now apply (Hnot p)); reflexivity. }
  split; [exact H1 | split; [exact H2 |]].
  rewrite H1, H2. discriminate.
Qed.

Lemma satisfies_email (e : string) (u : User) :
  satisfies [("email", e)] u = (email u =? e).
Proof. unfold satisfies. simpl. apply andb_true_r. Qed.

(** C9.  A login request with a (non-empty) email: the lookup is by email
    alone.  Whatever username the request carries, the answer is the one of
    the request as it is; and with a password, the answer is decided by the
    identity that has this email and by its stored password: identity A's
    email with identity B's username is checked against A. *)
Theorem login_by_email_ignores_username
        (env : Env) (w : World) (db : Db) (req : Request) (e : string) :
  b_email (req_body req) = Some e ->
  e <> "" ->
  (forall un : option string,
      login env w db (set_body req (set_username (req_body req) un))
      = login env w db req)
  /\ (JS.truthy (b_password (req_body req)) = true ->
      login env w db req =
        try_next db
          (match find (fun u => email u =? e) db with
           | None => Ok invalid_credentials
           | Some a =>
               if bcrypt_compare (value (b_password (req_body req))) (password a)
               then sendTokenResponse env w (mkDoc a schema_paths) 200
               else Ok invalid_credentials
           end)).
Proof.
  intros He Hne.
  assert (Ht : JS.truthy (Some e) = true).
  { simpl. destruct (String.eqb_spec e ""); [contradiction | reflexivity]. }
  split.
  - intros un. unfold login, login_query. simpl. rewrite He, Ht. reflexivity.
  - intros Hpw. rewrite login_well_formed.
    + unfold login_query. rewrite He, Ht. simpl value.
      rewrite (find_extensional _ (fun u => email u =? e) db (satisfies_email e)).
      reflexivity.
    + split; [left; now rewrite He | exact Hpw].
Qed.

Lemma findById_none (db : Db) (id : string) :
  isValidObjectId id = true ->
  (forall v, In v db -> _id v <> id) ->
  findById id db = Ok None.
Proof.
  intros Hid Hdb. unfold findById. rewrite Hid.
  rewrite find_none_when; [reflexivity|].
  intros v Hv. apply String.eqb_neq. now apply Hdb.
Qed.

(** C10.  [getMe] on a request with an attached identity whose id is the
    id of no document of the store (the identity was deleted after the
    gate resolved it): the answer is 200 with the body
    [{success: true, data: null}]. *)
Theorem getMe_deleted_identity (db : Db) (req : Request) (u : User) :
  user req = Some u ->
  isValidObjectId (_id u) = true ->
  (forall v, In v db -> _id v <> _id u) ->
  getMe db req
  = (db, Responded (mkResponse 200 (JObj [("success", JBool true); ("data", JNull)]))).
Proof.
  intros Hu Hid Hgone. unfold getMe. rewrite Hu.
  rewrite (findById_none db (_id u) Hid Hgone). reflexivity.
Qed.

End HandlerProperties.

(** ** The store: usernames are trimmed, registration and duplicates *)

Lemma trimStart_cases (s : string) :
  JS.trimStart s = "" \/
  exists c r, JS.trimStart s = String c r /\ JS.is_space c = false.
Proof.
  induction s as [|c r IH]; [now left|].
  simpl. destruct (JS.is_space c) eqn:Hc; [exact IH|].
  right. now exists c, r.
Qed.

Lemma trimEnd_head (c : ascii) (r : string) :
  JS.is_space c = false -> exists r', JS.trimEnd (String c r) = String c r'.
Proof.
  intros Hc. simpl. destruct (JS.trimEnd r) as [|c' r'].
  - rewrite Hc. now exists "".
  - now exists (String c' r').
Qed.

Lemma trimEnd_idempotent (s : string) : JS.trimEnd (JS.trimEnd s) = JS.trimEnd s.
Proof.
  induction s as [|c r IH]; [reflexivity|].
  simpl. destruct (JS.trimEnd r) as [|c' r'] eqn:Hr.
  - destruct (JS.is_space c) eqn:Hc; [reflexivity|].
    simpl. now rewrite Hc.
  - change (JS.trimEnd (String c (String c' r')))
      with (match JS.trimEnd (String c' r') with
            | "" => if JS.is_space c then "" else String c ""
            | r0 => String c r0
            end).
    now rewrite IH.
Qed.

Lemma trim_idempotent (s : string) : JS.trim (JS.trim s) = JS.trim s.
Proof.
  unfold JS.trim.
  destruct (trimStart_cases s) as [-> | (c & r & -> & Hc)]; [reflexivity|].
  destruct (trimEnd_head c r Hc) as [r' Hr'].
  rewrite Hr'. simpl JS.trimStart. rewrite Hc, <- Hr'.
  apply trimEnd_idempotent.
Qed.

Section StoreProperties.
Context {bc : Bcrypt} {jw : Jws} {mg : Mongo}.

Lemma new_document_throws (b : Body) (w : World) (e : JsError) :
  new_document b w = Throw e -> exists errs, e = ValidationError errs.
Proof.
  unfold new_document.
  destruct (validation_errors body_paths (apply_setters b)) as [|er errs].
  - destruct (b_name (apply_setters b)), (b_username (apply_setters b)),
      (b_email (apply_setters b)), (b_password (apply_setters b));
      intros [= <-]; now exists [].
  - intros [= <-]. now exists (er :: errs).
Qed.

(** The document of a body that passes validation. *)
Lemma new_document_ok (b : Body) (w : World) (u : User) :
  new_document b w = Ok u ->
  b_username b = Some (value (b_username b))
  /\ username u = JS.trim (value (b_username b))
  /\ b_password b = Some (password u)
  /\ _id u = fresh_id w.
Proof.
  unfold new_document.
  destruct (validation_errors body_paths (apply_setters b)); [|discriminate].
  destruct b as [n un e pw r ph ad]. simpl.
  destruct n, un, e, pw; simpl; try discriminate.
  intros [= <-]. simpl. repeat split; reflexivity.
Qed.

Lemma validation_error_400 (errs : list (string * string)) :
  errorHandler (ValidationError errs)
  = mkResponse 400 (JObj [("success", JBool false);
                          ("error", JStr (JS.or_else (Some (JS.join ", " (map snd errs)))
                                                      "Server Error"))]).
Proof. reflexivity. Qed.

Lemma duplicate_key_400 :
  errorHandler E11000
  = mkResponse 400 (JObj [("success", JBool false);
                          ("error", JStr "Duplicate field value entered")]).
Proof. reflexivity. Qed.

Lemma duplicate_username (u v : User) (db : Db) :
  In v db -> username v = username u -> duplicate_key u db = true.
Proof.
  intros Hv Hun. unfold duplicate_key. apply existsb_exists.
  exists v. split; [exact Hv|].
  rewrite Hun, String.eqb_refl. now rewrite orb_true_r.
Qed.

(** What [create] does, by cases. *)
Lemma create_cases (b : Body) (w : World) (db : Db) :
  (exists errs, create b w db = Throw (ValidationError errs))
  \/ exists u, new_document b w = Ok u
               /\ create b w db =
                    if duplicate_key (pre_save true (salt w) u) db
                    then Throw E11000
                    else Ok (mkDoc (pre_save true (salt w) u) schema_paths,
                             (db ++ [pre_save true (salt w) u])%list).
Proof.
  unfold create. destruct (new_document b w) as [u|e] eqn:Hn.
  - right. exists u. split; [reflexivity|].
    simpl. unfold insertOne.
    destruct (duplicate_key _ db); reflexivity.
  - left. destruct (new_document_throws b w e Hn) as [errs ->].
    now exists errs.
Qed.

(** [create] keeps the usernames of the store trimmed. *)
Lemma create_trimmed (b : Body) (w : World) (db db' : Db) (d : Doc) :
  Forall trimmed db -> create b w db = Ok (d, db') -> Forall trimmed db'.
Proof.
  intros Hdb. destruct (create_cases b w db) as [[errs ->] | (u & Hn & ->)];
    [discriminate|].
  destruct (duplicate_key _ db); [discriminate|].
  intros [= _ <-]. apply Forall_app. split; [exact Hdb|].
  constructor; [|constructor].
  apply new_document_ok in Hn. destruct Hn as (_ & Hun & _).
  unfold trimmed. simpl. rewrite Hun. apply trim_idempotent.
Qed.

(** C8.  A registration request whose username is the username of an
    identity of the store fails, whatever its email: nothing is stored, no
    token is issued, the error goes to the error handler and the client is
    answered 400 with [success: false].  (The error is Mongoose's
    ValidationError when the body is not valid, else the duplicate-key
    error of the unique index on [username]; the handler maps both to
    400.) *)
Theorem register_duplicate_username
        (env : Env) (w : World) (db : Db) (req : Request) (u : User) :
  Forall trimmed db ->
  In u db ->
  b_username (req_body req) = Some (username u) ->
  exists e msg,
    register env w db req = (db, NextErr e)
    /\ ((exists errs, e = ValidationError errs) \/ e = E11000)
    /\ finish (NextErr e)
       = mkResponse 400 (JObj [("success", JBool false); ("error", JStr msg)]).
Proof.
  intros Hdb Hu Hun. unfold register.
  destruct req as [auth b q pid usr]. simpl in *.
  replace (mkBody (b_name b) (b_username b) (b_email b) (b_password b)
                  (b_role b) (b_phone b) (b_address b)) with b
    by (now destruct b).
  destruct (create_cases b w db) as [[errs ->] | (doc & Hn & ->)].
  - exists (ValidationError errs). eexists. split; [reflexivity|].
    split; [left; now exists errs|]. apply validation_error_400.
  - apply new_document_ok in Hn. destruct Hn as (_ & Hdoc & _).
    rewrite Hun in Hdoc. simpl in Hdoc.
    rewrite (duplicate_username (pre_save true (salt w) doc) u db Hu).
    + exists E11000. eexists. split; [reflexivity|].
      split; [now right|]. apply duplicate_key_400.
    + simpl. rewrite Hdoc. symmetry.
      rewrite Forall_forall in Hdb. apply (Hdb u Hu).
Qed.

(** ** Passwords *)

(** Through [create] the stored password is the bcrypt hash of the
    plaintext under the salt drawn, and [matchPassword] on the document is
    [bcrypt.compare] of the candidate with that hash. *)
Lemma create_hashes_password (b : Body) (w : World) (db db' : Db) (d : Doc) :
  create b w db = Ok (d, db') ->
  exists plaintext,
    b_password b = Some plaintext
    /\ password (doc_user d) = bcrypt_hash plaintext (salt w)
    /\ In (doc_user d) db'
    /\ forall p, matchPassword d p = Ok (bcrypt_compare p (bcrypt_hash plaintext (salt w))).
Proof.
  destruct (create_cases b w db) as [[errs ->] | (u & Hn & ->)]; [discriminate|].
  destruct (duplicate_key _ db); [discriminate|].
  intros [= <- <-]. apply new_document_ok in Hn. destruct Hn as (_ & _ & Hpw & _).
  exists (password u). split; [exact Hpw|].
  split; [reflexivity|].
  split; [apply in_or_app; right; now left|].
  intros p. reflexivity.
Qed.

(** With a hash that has no collision, the password set through [create]
    is the only candidate that matches. *)
Lemma create_then_matchPassword (b : Body) (w : World) (db db' : Db) (d : Doc) :
  (forall p q s, bcrypt_compare p (bcrypt_hash q s) = true <-> p = q) ->
  create b w db = Ok (d, db') ->
  forall p, matchPassword d p = Ok true <-> b_password b = Some p.
Proof.
  intros Hideal Hc p.
  destruct (create_hashes_password b w db db' d Hc) as (pl & Hpl & _ & _ & Hm).
  rewrite Hm, Hpl. split.
  - intros [= Ht]. apply Hideal in Ht. now subst.
  - intros [= ->]. f_equal. now apply Hideal.
Qed.

(** [findByIdAndUpdate] with a password of six characters or more and no
    other path, in a store whose unique indexes hold: the [password] path
    of the document is set to the string of the request as it is, and so
    [this.password] of the identity is the plaintext. *)
Lemma update_stores_password_as_given (db : Db) (u : User) (pw : string) :
  isValidObjectId (_id u) = true ->
  find (fun v => _id v =? _id u) db = Some u ->
  (forall v, In v db -> _id v <> _id u ->
             username v <> username u /\ email v <> email u) ->
  (6 <= String.length pw)%nat ->
  findByIdAndUpdate (_id u) (mkBody None None None (Some pw) None None None) db
  = Ok (Some (mkDoc (set_password u pw) default_fields),
        map (fun v => if _id v =? _id u then set_password u pw else v) db).
Proof.
  intros Hid Hf Huniq Hlen. unfold findByIdAndUpdate. rewrite Hid. simpl negb. cbv iota.
  assert (Hv : validation_errors
                 (touched (apply_setters (mkBody None None None (Some pw) None None None)))
                 (apply_setters (mkBody None None None (Some pw) None None None)) = []).
  { unfold touched, validation_errors, validate_path, body_get, apply_setters, setter.
    simpl. unfold required, minlength. simpl.
    destruct (String.eqb_spec pw "") as [-> | _]; [simpl in Hlen; lia|].
    simpl. destruct (Nat.ltb_spec (String.length pw) 6); [lia | reflexivity]. }
  rewrite Hv, Hf.
  assert (Hu : apply_update (apply_setters (mkBody None None None (Some pw) None None None)) u
               = set_password u pw) by reflexivity.
  rewrite Hu.
  assert (Hdup : existsb (fun v => negb (_id v =? _id u)
                                   && ((username v =? username (set_password u pw))
                                       || (email v =? email (set_password u pw)))) db
                 = false).
  { apply not_true_is_false. intros Hex. apply existsb_exists in Hex.
    destruct Hex as (v & Hv' & Hp). simpl in Hp.
    destruct (String.eqb_spec (_id v) (_id u)) as [|Hne]; [discriminate|].
    destruct (Huniq v Hv' Hne) as [Hun Hem].
    apply String.eqb_neq in Hun, Hem. rewrite Hun, Hem in Hp. discriminate. }
  rewrite Hdup. reflexivity.
Qed.

End StoreProperties.

(** ** The password path after an update *)

Lemma find_after_update (db : Db) (id : string) (u u' : User) :
  find (fun v => _id v =? id) db = Some u ->
  _id u' = id ->
  find (fun v => _id v =? id) (map (fun v => if _id v =? id then u' else v) db)
  = Some u'.
Proof.
  intros Hf Hid. induction db as [|a db IH]; [discriminate|].
  simpl in *. destruct (_id a =? id) eqn:Ha.
  - now rewrite Hid, String.eqb_refl.
  - rewrite Ha. now apply IH.
Qed.

Section PasswordProperties.
Context {bc : Bcrypt} {jw : Jws} {mg : Mongo}.

(** C7, on the code.  An administrator's update of an identity's password
    ([PUT /api/v1/users/:id] with [{password: pw}], [pw] of six characters
    or more): the request is answered 200 and the store then holds [pw]
    itself in the identity's [password] path, not a hash of it.  From then
    on [matchPassword] compares a candidate with the plaintext: on the
    plaintext that was set and on the stored value it is the same call, so
    it cannot be true on the first and false on the second. *)
Theorem update_password_stored_unhashed
        (db : Db) (req : Request) (u : User) (pw : string) :
  isValidObjectId (_id u) = true ->
  find (fun v => _id v =? _id u) db = Some u ->
  (forall v, In v db -> _id v <> _id u ->
             username v <> username u /\ email v <> email u) ->
  (6 <= String.length pw)%nat ->
  params_id req = _id u ->
  req_body req = mkBody None None None (Some pw) None None None ->
  exists db' u',
    updateUser db req
    = (db', Responded (mkResponse 200 (data_body (toJSON (mkDoc u' default_fields)))))
    /\ find (fun v => _id v =? _id u) db' = Some u'
    /\ password u' = pw
    /\ (forall d, doc_user d = u' -> doc_password d = Some (password u') ->
        (forall p, matchPassword d p = Ok (bcrypt_compare p pw))
        /\ ~ (matchPassword d pw = Ok true
              /\ matchPassword d (password u') = Ok false)).
Proof.
  intros Hid Hf Huniq Hlen Hpid Hbody.
  exists (map (fun v => if _id v =? _id u then set_password u pw else v) db),
         (set_password u pw).
  split.
  { unfold updateUser. rewrite Hpid, Hbody.
    now rewrite (update_stores_password_as_given db u pw Hid Hf Huniq Hlen). }
  split; [now apply (find_after_update db (_id u) u)|].
  split; [reflexivity|].
  intros d Hd Hdp.
  assert (Hm : forall p, matchPassword d p = Ok (bcrypt_compare p pw)).
  { intros p. unfold matchPassword. now rewrite Hdp. }
  split; [exact Hm|].
  simpl. rewrite !Hm. intros [[= Ht] [= Hfalse]]. congruence.
Qed.

End PasswordProperties.

(** ** Token issuance and the signing secret *)

Section TokenProperties.
Context {bc : Bcrypt} {jw : Jws} {mg : Mongo}.

(** With a secret and a duration the timespan parser reads, the token's
    [exp] is its [iat] plus the duration in seconds. *)
Lemma issue_with_duration (env : Env) (w : World) (d : Doc)
      (secret e : string) (dur : Z) :
  JWT_SECRET env = Some secret -> secret <> "" ->
  JWT_EXPIRE env = Some e -> e <> "" ->
  ms e = Some dur ->
  getSignedJwtToken env w d
  = Ok (jws_sign (mkClaims (_id (doc_user d)) (now w / 1000)
                           (Some (now w / 1000 + dur / 1000)%Z)) secret).
Proof.
  intros Hs Hsne He Hene Hms. unfold getSignedJwtToken, jwt_sign.
  rewrite Hs, He. simpl.
  destruct (String.eqb_spec secret ""); [contradiction|].
  destruct (String.eqb_spec e ""); [contradiction|].
  simpl. now rewrite Hms.
Qed.

(** C5, on the code.  With a signing secret and no [JWT_EXPIRE] in the
    environment, [getSignedJwtToken] hands [expiresIn: undefined] to
    [jwt.sign], which throws: no token is issued, and [register] and
    [login] end in the error handler's 500.  The default ["30d"] of
    [SECURITY_CONFIG.JWT_EXPIRE] is not read on this path. *)
Theorem issue_without_JWT_EXPIRE
        (c : ascii) (s : string) (port node : option string)
        (w : World) (d : Doc) (statusCode : Z) :
  let env := mkEnv (Some (String c s)) None port node in
  SECURITY_CONFIG.JWT_EXPIRE env = "30d"
  /\ getSignedJwtToken env w d = jwt_sign (_id (doc_user d)) (String c s) None (now w)
  /\ getSignedJwtToken env w d = Throw (Error expiresIn_message)
  /\ sendTokenResponse env w d statusCode = Throw (Error expiresIn_message)
  /\ finish (NextErr (Error expiresIn_message))
     = mkResponse 500 (JObj [("success", JBool false); ("error", JStr expiresIn_message)]).
Proof.
  repeat split; reflexivity.
Qed.

Lemma missing_secret_verify (env : Env) (w : World) (token : string) :
  JS.truthy (JWT_SECRET env) = false ->
  verify_token env w token = Throw (Error secret_missing).
Proof.
  unfold verify_token. destruct (JWT_SECRET env) as [s|]; [|reflexivity].
  intros Hs. simpl in Hs. unfold JS.truthy. now rewrite Hs.
Qed.

(** C6, as the code has it.  With no signing secret in the environment the
    start-up script does what it does with one: the process listens.  The
    failure comes when a token is issued ([getSignedJwtToken] throws, and
    the handler's answer is the error handler's 500) or verified
    ([protect] answers every request 401). *)
Theorem missing_secret_fails_at_use (env : Env) :
  JS.truthy (JWT_SECRET env) = false ->
  server_start env = Listening (JS.or_else (PORT env) "5000")
  /\ (forall w d, getSignedJwtToken env w d = Throw (Error secret_missing))
  /\ (forall w d code, sendTokenResponse env w d code = Throw (Error secret_missing))
  /\ finish (NextErr (Error secret_missing))
     = mkResponse 500 (JObj [("success", JBool false); ("error", JStr secret_missing)])
  /\ (forall w db req, protect env w db req = Responded not_authorized).
Proof.
  intros Hs.
  assert (Hissue : forall w d, getSignedJwtToken env w d = Throw (Error secret_missing)).
  { intros w d. unfold getSignedJwtToken.
    destruct (JWT_SECRET env) as [s|]; [|reflexivity].
    simpl in Hs. unfold JS.truthy. now rewrite Hs. }
  split; [reflexivity|].
  split; [exact Hissue|].
  split; [intros w d code; unfold sendTokenResponse; now rewrite Hissue|].
  split; [reflexivity|].
  intros w db req. unfold protect.
  destruct (bearer_token (authorization req)) as [token|]; [|reflexivity].
  destruct (negb (JS.truthy (Some token))); [reflexivity|].
  now rewrite (missing_secret_verify env w token Hs).
Qed.

(** ** Field selection in [getUsers] *)

(** The query string [fields=+password] makes [getUsers] call
    [select('+password')], the call [login] makes to load the hash. *)
Lemma build_select_plus_password :
  build_select (Some "+password") = "+password".
Proof. reflexivity. Qed.

(** A document loaded with every path serializes its [password]. *)
Lemma toJSON_password (u : User) :
  get "password" (toJSON (mkDoc u schema_paths)) = Some (JStr (password u)).
Proof. reflexivity. Qed.

(** [getUsers] with [fields=+password]: every document of the answer is
    serialized with its [password] path. *)
Lemma getUsers_plus_password (db : Db) (req : Request) (users : list User) :
  query_get "fields" (req_query req) = Some "+password" ->
  skip_limit
    ((JS.num_or (JS.parseInt (query_get "page" (req_query req))) 1 - 1)
     * JS.num_or (JS.parseInt (query_get "limit" (req_query req))) 10)%Z
    (JS.num_or (JS.parseInt (query_get "limit" (req_query req))) 10)
    (sort_docs (build_sortBy (query_get "sort" (req_query req)))
               (filter (filter_matches (build_queryObj (req_query req))) db))
  = Ok users ->
  exists resp,
    getUsers db req = (db, Responded resp)
    /\ get "data" (body resp)
       = Some (JArr (map (fun u => toJSON (mkDoc u schema_paths)) users)).
Proof.
  intros Hfields Hfound. unfold getUsers, find_users.
  rewrite Hfields, build_select_plus_password, select_plus_password.
  simpl bind at 1. rewrite Hfound. simpl.
  eexists. split; [reflexivity|].
  simpl. now rewrite map_map.
Qed.

End TokenProperties.

(** ** The other writes keep the usernames trimmed *)

Section StoreInvariant.
Context {bc : Bcrypt} {jw : Jws} {mg : Mongo}.

Lemma apply_update_trimmed (b : Body) (u : User) :
  trimmed u -> trimmed (apply_update (apply_setters b) u).
Proof.
  unfold trimmed. intros Hu. destruct b as [n un e pw r ph ad]. simpl.
  destruct un as [s|]; simpl; [apply trim_idempotent | exact Hu].
Qed.

Lemma findByIdAndUpdate_trimmed (id : string) (b : Body) (db db' : Db) (d : option Doc) :
  Forall trimmed db -> findByIdAndUpdate id b db = Ok (d, db') -> Forall trimmed db'.
Proof.
  intros Hdb. unfold findByIdAndUpdate.
  destruct (negb (isValidObjectId id)); [discriminate|].
  destruct (validation_errors _ _); [|discriminate].
  destruct (find (fun u => _id u =? id) db) as [u|] eqn:Hf.
  - destruct (existsb _ db); [discriminate|].
    intros [= _ <-]. apply Forall_map.
    rewrite Forall_forall in *. intros v Hv.
    destruct (_id v =? id); [|now apply Hdb].
    apply apply_update_trimmed. apply Hdb. now apply find_some in Hf.
  - now intros [= _ <-].
Qed.

Lemma findByIdAndDelete_trimmed (id : string) (db db' : Db) (d : option Doc) :
  Forall trimmed db -> findByIdAndDelete id db = Ok (d, db') -> Forall trimmed db'.
Proof.
  intros Hdb. unfold findByIdAndDelete.
  destruct (negb (isValidObjectId id)); [discriminate|].
  destruct (find (fun u => _id u =? id) db).
  - intros [= _ <-]. rewrite Forall_forall in *.
    intros v Hv. apply filter_In in Hv. now apply Hdb.
  - now intros [= _ <-].
Qed.

(** Every handler leaves a store of trimmed usernames so. *)
Lemma users_handler_trimmed (w : World) (route : UsersRoute) (db db' : Db)
      (req : Request) (o : Outcome) :
  Forall trimmed db -> users_handler w route db req = (db', o) -> Forall trimmed db'.
Proof.
  intros Hdb. destruct route; simpl.
  - unfold getUsers, try_next. destruct (find_users _ _ _ _ _ db); simpl;
      now intros [= <- _].
  - unfold getUser, try_next. destruct (findById _ db) as [[d|]|]; simpl;
      now intros [= <- _].
  - unfold createUser. destruct (create (req_body req) w db) as [[d db1]|e] eqn:Hc.
    + intros [= <- _]. now apply (create_trimmed _ _ _ _ _ Hdb Hc).
    + now intros [= <- _].
  - unfold updateUser.
    destruct (findByIdAndUpdate _ _ db) as [[[d|] db1]|e] eqn:Hu;
      intros [= <- _]; try exact Hdb;
      now apply (findByIdAndUpdate_trimmed _ _ _ _ _ Hdb Hu).
  - unfold deleteUser.
    destruct (findByIdAndDelete _ db) as [[[d|] db1]|e] eqn:Hd;
      intros [= <- _]; try exact Hdb;
      now apply (findByIdAndDelete_trimmed _ _ _ _ Hdb Hd).
Qed.

End StoreInvariant.

(* ================================================================== *)
(** * Further properties of the gates *)
(* ================================================================== *)

Lemma append_associative (a b c : string) : (a ++ b) ++ c = a ++ (b ++ c).
Proof. induction a as [|x a IH]; simpl; [reflexivity | now rewrite IH]. Qed.

Lemma no_space_append (a b : string) : no_space a -> no_space b -> no_space (a ++ b).
Proof.
  unfold no_space. induction a as [|x a IH]; simpl; intros Ha Hb c Hc.
  - now apply Hb.
  - destruct Hc as [<- | Hc]; [apply Ha; now left|].
    apply IH; try assumption. intros c' Hc'. apply Ha. now right.
Qed.

Lemma no_space_Bearer : no_space "Bearer".
Proof.
  intros c Hc. simpl in Hc.
  repeat (destruct Hc as [<- | Hc]; [discriminate|]). destruct Hc.
Qed.

(** X1.  [protect] checks that the header starts with [Bearer] and takes
    what follows the first space: whatever stands between [Bearer] and
    that space is not looked at, so [Bearer t], [BearerX t] and
    [Bearer-anything t] all yield the token [t]. *)
Theorem bearer_scheme_is_a_prefix (x t : string) :
  no_space x -> no_space t ->
  bearer_token (Some ("Bearer" ++ x ++ " " ++ t)) = Some t.
Proof.
  intros Hx Ht. unfold bearer_token.
  assert (Hstart : JS.truthy (Some ("Bearer" ++ x ++ " " ++ t))
                   && JS.startsWith ("Bearer" ++ x ++ " " ++ t) "Bearer" = true)
    by (unfold JS.startsWith; simpl; now destruct (x ++ String " " t)).
  rewrite Hstart.
  replace ("Bearer" ++ x ++ " " ++ t) with (("Bearer" ++ x) ++ String " " t)
    by (now rewrite append_associative).
  rewrite (split_append " " ("Bearer" ++ x) t (no_space_append _ _ no_space_Bearer Hx)).
  now rewrite (split_no_separator " " t Ht).
Qed.

Section MoreGateProperties.
Context {bc : Bcrypt} {jw : Jws} {mg : Mongo}.

(** What [protect] does with a token the signature layer accepts. *)
Lemma protect_verified (env : Env) (w : World) (db : Db) (req : Request)
      (secret token : string) (c : Claims) :
  JWT_SECRET env = Some secret -> secret <> "" ->
  jws_verify token secret = Some c ->
  token <> "" -> no_space token ->
  protect env w db (set_authorization req ("Bearer " ++ token))
  = match claim_exp c with
    | Some e =>
        if (e <=? now w / 1000)%Z then Responded not_authorized
        else match findById (claim_id c) db with
             | Ok (Some d) =>
                 Next (set_user (set_authorization req ("Bearer " ++ token)) (doc_user d))
             | Ok None => Responded (mkResponse 401 (message_body "User not found"))
             | Throw _ => Responded not_authorized
             end
    | None =>
        match findById (claim_id c) db with
        | Ok (Some d) =>
            Next (set_user (set_authorization req ("Bearer " ++ token)) (doc_user d))
        | Ok None => Responded (mkResponse 401 (message_body "User not found"))
        | Throw _ => Responded not_authorized
        end
    end.
Proof.
  intros Hs Hsne Hv Hne Hsp.
  assert (Ht : JS.truthy (Some token) = true).
  { simpl. destruct (String.eqb_spec token ""); [contradiction | reflexivity]. }
  rewrite (protect_token env w db (set_authorization req ("Bearer " ++ token)) token
             (bearer_token_extracted token Hsp) Ht).
  unfold verify_token, jwt_verify. rewrite Hs, Hv.
  assert (Hst : JS.truthy (Some secret) = true).
  { simpl. destruct (String.eqb_spec secret ""); [contradiction | reflexivity]. }
  rewrite Hst.
  destruct (claim_exp c) as [e|]; [|reflexivity].
  destruct (e <=? now w / 1000)%Z; reflexivity.
Qed.

(** X2.  The token [getSignedJwtToken] issues for an identity of the store
    at clock [now w], presented to [protect] at clock [now w']: the
    identity is attached and [next()] is called as long as the clock in
    seconds is before [iat + duration]; from that second on the answer is
    the 401 of every other failure. *)
Theorem issued_token_lifetime
        (env : Env) (w w' : World) (db : Db) (req : Request) (u : User)
        (fields : list string) (secret e : string) (dur : Z) :
  configured env secret e dur ->
  well_signed (issued_claims (_id u) (now w) dur) secret ->
  isValidObjectId (_id u) = true ->
  find (fun v => _id v =? _id u) db = Some u ->
  let token := jws_sign (issued_claims (_id u) (now w) dur) secret in
  getSignedJwtToken env w (mkDoc u fields) = Ok token
  /\ protect env w' db (set_authorization req ("Bearer " ++ token))
     = if (now w / 1000 + dur / 1000 <=? now w' / 1000)%Z
       then Responded not_authorized
       else Next (set_user (set_authorization req ("Bearer " ++ token)) u).
Proof.
  intros (Hs & Hsne & He & Hene & Hms) (Hv & Hne & Hsp) Hid Hf token.
  split.
  - exact (issue_with_duration env w (mkDoc u fields) secret e dur Hs Hsne He Hene Hms).
  - subst token.
    rewrite (protect_verified env w' db req secret _ _ Hs Hsne Hv Hne Hsp).
    simpl. unfold findById. rewrite Hid, Hf. reflexivity.
Qed.

(** X3.  A token that verifies and has not expired, for an identity that
    is no more in the store: [protect] answers 401 with the message
    "User not found", not the message of the other failures, and does not
    call [next()]. *)
Theorem token_of_deleted_identity
        (env : Env) (w' : World) (db : Db) (req : Request)
        (secret : string) (c : Claims) (exp : Z) :
  JWT_SECRET env = Some secret -> secret <> "" ->
  well_signed c secret ->
  claim_exp c = Some exp -> (now w' / 1000 < exp)%Z ->
  isValidObjectId (claim_id c) = true ->
  (forall v, In v db -> _id v <> claim_id c) ->
  protect env w' db (set_authorization req ("Bearer " ++ jws_sign c secret))
  = Responded (mkResponse 401
      (JObj [("success", JBool false); ("message", JStr "User not found")])).
Proof.
  intros Hs Hsne (Hv & Hne & Hsp) Hexp Hlt Hid Hgone.
  rewrite (protect_verified env w' db req secret _ _ Hs Hsne Hv Hne Hsp).
  rewrite Hexp. destruct (Z.leb_spec exp (now w' / 1000)); [lia|].
  now rewrite (findById_none db (claim_id c) Hid Hgone).
Qed.

(** X4.  [authorize(...roles)] calls [next()] exactly when an identity is
    attached and its role is one of [roles], and it hands the request on
    as it received it; with no identity attached it answers 403 for the
    role [undefined]. *)
Theorem authorize_admits_listed_roles (roles : list string) (req : Request) :
  (forall req', authorize roles req = Next req' <->
                req' = req
                /\ exists u, user req = Some u /\ In (role_name (role u)) roles)
  /\ (user req = None ->
      authorize roles req
      = Responded (mkResponse 403 (message_body
          "User role undefined is not authorized to access this route"))).
Proof.
  split.
  - intros req'. unfold authorize. destruct (user req) as [u|].
    + destruct (JS.includes roles (role_name (role u))) eqn:Hi; simpl.
      * split.
        -- intros [= <-]. split; [reflexivity|]. exists u. split; [reflexivity|].
           unfold JS.includes in Hi. apply existsb_exists in Hi.
           destruct Hi as (r & Hr & Heq). apply String.eqb_eq in Heq. now subst.
        -- now intros [-> _].
      * split; [discriminate|].
        intros (_ & v & [= <-] & Hin). exfalso.
        assert (Ht : JS.includes roles (role_name (role u)) = true).
        { unfold JS.includes. apply existsb_exists.
          exists (role_name (role u)). split; [exact Hin | apply String.eqb_refl]. }
        congruence.
    + split; [discriminate|]. now intros (_ & v & Hv & _).
  - intros Hu. unfold authorize. now rewrite Hu.
Qed.

End MoreGateProperties.

(* ================================================================== *)
(** * Further properties of registration and login *)
(* ================================================================== *)

Section AccountProperties.
Context {bc : Bcrypt} {jw : Jws} {mg : Mongo}.

Lemma validation_errors_nil_cons (p : string) (ps : list string) (b : Body) :
  validation_errors (p :: ps) b = [] ->
  validate_path p (body_get p b) = None /\ validation_errors ps b = [].
Proof.
  unfold validation_errors. simpl. intros H. apply app_eq_nil in H.
  destruct H as [H1 H2]. split; [|exact H2].
  destruct (validate_path p (body_get p b)); [discriminate | reflexivity].
Qed.

(** A body that passes validation has the four required paths. *)
Lemma valid_body_required (b : Body) :
  validation_errors body_paths (apply_setters b) = [] ->
  b_name b = Some (value (b_name b))
  /\ b_username b = Some (value (b_username b))
  /\ b_email b = Some (value (b_email b))
  /\ b_password b = Some (value (b_password b)).
Proof.
  unfold body_paths. intros H.
  apply validation_errors_nil_cons in H. destruct H as [Hn H].
  apply validation_errors_nil_cons in H. destruct H as [Hun H].
  apply validation_errors_nil_cons in H. destruct H as [He H].
  apply validation_errors_nil_cons in H. destruct H as [_ H].
  apply validation_errors_nil_cons in H. destruct H as [Hpw _].
  destruct b as [n un e pw r ph ad]. simpl in *.
  destruct n; [|discriminate]. destruct un; [|discriminate].
  destruct e; [|discriminate]. destruct pw; [|discriminate].
  repeat split; reflexivity.
Qed.

(** [User.create] on a valid body whose [_id], [username] and [email] are
    those of no stored document. *)
Lemma create_valid (b : Body) (w : World) (db : Db) :
  validation_errors body_paths (apply_setters b) = [] ->
  (forall v, In v db ->
             _id v <> fresh_id w
             /\ username v <> JS.trim (value (b_username b))
             /\ email v <> value (b_email b)) ->
  create b w db
  = Ok (mkDoc (created_user b w) schema_paths, (db ++ [created_user b w])%list).
Proof.
  intros Hvalid Hfresh.
  destruct (valid_body_required b Hvalid) as (Hn & Hun & He & Hpw).
  assert (Hdoc : new_document b w
                 = Ok (mkUser (fresh_id w) (JS.trim (value (b_name b)))
                              (JS.trim (value (b_username b))) (value (b_email b))
                              (role_or_default (b_role b)) (value (b_password b))
                              (b_phone b) (b_address b) (now w))).
  { unfold new_document. rewrite Hvalid.
    destruct b as [n un e pw r ph ad]. simpl in *.
    rewrite Hn, Hun, He, Hpw. reflexivity. }
  unfold create. rewrite Hdoc. simpl bind.
  assert (Hdup : duplicate_key (created_user b w) db = false).
  { apply not_true_is_false. intros Hex. unfold duplicate_key in Hex.
    apply existsb_exists in Hex. destruct Hex as (v & Hv & Hp).
    destruct (Hfresh v Hv) as (H1 & H2 & H3). simpl in Hp.
    apply String.eqb_neq in H1, H2, H3. rewrite H1, H2, H3 in Hp. discriminate. }
  unfold insertOne.
  change (pre_save true (salt w) _) with (created_user b w).
  now rewrite Hdup.
Qed.


(** X6.  [register] with the same valid body of ASCII strings where the
    environment has no signing secret: the identity is stored all the same,
    and then the token cannot be issued; the error goes to the error
    handler and the client is answered 500, with the identity left in the
    store. *)
Theorem register_stores_before_token_failure
        (env : Env) (w : World) (db : Db) (req : Request) :
  ascii_body (req_body req) = true ->
  validation_errors body_paths (apply_setters (req_body req)) = [] ->
  (forall v, In v db ->
             _id v <> fresh_id w
             /\ username v <> JS.trim (value (b_username (req_body req)))
             /\ email v <> value (b_email (req_body req))) ->
  JS.truthy (JWT_SECRET env) = false ->
  register env w db req
  = ((db ++ [created_user (req_body req) w])%list, NextErr (Error secret_missing))
  /\ finish (NextErr (Error secret_missing))
     = mkResponse 500 (JObj [("success", JBool false); ("error", JStr secret_missing)]).
Proof.
  intros _ Hvalid Hfresh Hs. split; [|reflexivity]. unfold register.
  replace (mkBody (b_name (req_body req)) (b_username (req_body req))
                  (b_email (req_body req)) (b_password (req_body req))
                  (b_role (req_body req)) (b_phone (req_body req))
                  (b_address (req_body req))) with (req_body req)
    by (now destruct (req_body req)).
  rewrite (create_valid (req_body req) w db Hvalid Hfresh).
  unfold sendTokenResponse, getSignedJwtToken.
  destruct (JWT_SECRET env) as [s|]; [|reflexivity].
  simpl in Hs. unfold JS.truthy. rewrite Hs. reflexivity.
Qed.

(** X7.  [login] with an identifier that designates a stored identity and
    the password [bcrypt.compare] accepts for its stored hash, under a
    configured secret and duration: the answer is 200 with a token whose
    subject is that identity's [_id], issued at the clock of the request;
    the store is not changed. *)
Theorem login_issues_token_for_identity
        (env : Env) (w : World) (db : Db) (req : Request) (u : User)
        (secret e : string) (dur : Z) :
  well_formed_login (req_body req) ->
  find (satisfies (login_query (b_email (req_body req))
                               (b_username (req_body req)))) db = Some u ->
  bcrypt_compare (value (b_password (req_body req))) (password u) = true ->
  configured env secret e dur ->
  login env w db req
  = (db, Responded (mkResponse 200
       (JObj [("success", JBool true);
              ("token", JStr (jws_sign (issued_claims (_id u) (now w) dur) secret))]))).
Proof.
  intros Hwf Hf Hpw (Hs & Hsne & He & Hene & Hms).
  rewrite (login_well_formed env w db req Hwf), Hf, Hpw.
  unfold sendTokenResponse.
  rewrite (issue_with_duration env w _ secret e dur Hs Hsne He Hene Hms).
  reflexivity.
Qed.

(** X8.  [login] answers 400 exactly when the body has neither an email
    nor a username, or has no password (absent or the empty string). *)
Theorem login_400_iff_fields_missing (env : Env) (w : World) (db : Db) (req : Request) :
  (exists r, login env w db req = (db, Responded r) /\ status r = 400%Z)
  <-> (JS.truthy (b_email (req_body req)) = false
       /\ JS.truthy (b_username (req_body req)) = false)
      \/ JS.truthy (b_password (req_body req)) = false.
Proof.
  split.
  - intros (r & Hl & Hst).
    destruct (JS.truthy (b_password (req_body req))) eqn:Hpw; [|now right].
    destruct (JS.truthy (b_email (req_body req))) eqn:Hem;
      destruct (JS.truthy (b_username (req_body req))) eqn:Hun;
      try (left; split; reflexivity); exfalso;
      (assert (Hwf : well_formed_login (req_body req))
        by (split; [first [left; exact Hem | right; exact Hun] | exact Hpw]));
      rewrite (login_well_formed env w db req Hwf) in Hl;
      (destruct (find _ db) as [u|];
       [destruct (bcrypt_compare _ _);
        [unfold sendTokenResponse in Hl;
         destruct (getSignedJwtToken env w _); simpl in Hl|]|]);
      simpl in Hl; inversion Hl; subst r; discriminate.
  - intros Hmiss. eexists. unfold login.
    assert (Hguard : (negb (JS.truthy (b_email (req_body req)))
                      && negb (JS.truthy (b_username (req_body req))))
                     || negb (JS.truthy (b_password (req_body req))) = true).
    { destruct Hmiss as [[-> ->] | ->]; [reflexivity | apply orb_true_r]. }
    rewrite Hguard. split; reflexivity.
Qed.

(** X9.  The handlers that only read: [login], [getMe], [logout],
    [getUsers] and [getUser] leave the store as it is on every request. *)
Theorem reading_handlers_keep_store
        (env : Env) (w : World) (db : Db) (req : Request) :
  fst (login env w db req) = db
  /\ fst (getMe db req) = db
  /\ fst (logout db req) = db
  /\ fst (getUsers db req) = db
  /\ fst (getUser db req) = db.
Proof.
  repeat split.
  - unfold login. destruct (_ || _); [reflexivity|].
    unfold try_next. now destruct (bind _ _).
  - unfold getMe. destruct (user req); [|reflexivity].
    unfold try_next. now destruct (bind _ _).
  - unfold getUsers, try_next. now destruct (bind _ _).
  - unfold getUser, try_next. now destruct (bind _ _).
Qed.

End AccountProperties.

(* ================================================================== *)
(** * Further properties of the list endpoint *)
(* ================================================================== *)

Lemma obj_set_in {V} (k : string) (v : V) (o : list (string * V)) (k' : string) (v' : V) :
  In (k', v') (obj_set k v o) -> (k' = k /\ v' = v) \/ In (k', v') o.
Proof.
  induction o as [|[k0 v0] o IH]; simpl.
  - intros [[= <- <-] | []]. now left.
  - destruct (k0 =? k) eqn:Hk; simpl.
    + intros [[= <- <-] | Hin]; [now left | right; now right].
    + intros [[= <- <-] | Hin]; [right; now left|].
      destruct (IH Hin) as [Heq | Hin']; [now left | right; now right].
Qed.

Lemma obj_set_keys {V} (k : string) (v : V) (o : list (string * V)) (k' : string) :
  In k' (map fst (obj_set k v o)) <-> k' = k \/ In k' (map fst o).
Proof.
  induction o as [|[k0 v0] o IH]; simpl.
  - split; [intros [<- | []]; now left | intros [-> | []]; now left].
  - destruct (String.eqb_spec k0 k) as [-> | Hne]; simpl.
    + split; [intros [<- | H]; [now left | right; now right]
             | intros [-> | [<- | H]]; [now left | now left | now right]].
    + rewrite IH. split.
      * intros [<- | [-> | H]]; [right; now left | now left | right; now right].
      * intros [-> | [<- | H]]; [right; now left | now left | right; now right].
Qed.

Lemma obj_set_NoDup {V} (k : string) (v : V) (o : list (string * V)) :
  NoDup (map fst o) -> NoDup (map fst (obj_set k v o)).
Proof.
  induction o as [|[k0 v0] o IH]; simpl; intros Hnd.
  - constructor; [intros [] | constructor].
  - inversion Hnd as [|? ? Hnot Hnd']; subst.
    destruct (String.eqb_spec k0 k) as [-> | Hne]; simpl.
    + now constructor.
    + constructor; [|now apply IH].
      rewrite obj_set_keys. intros [-> | Hin]; [now apply Hne | contradiction].
Qed.

Lemma obj_set_has {V} (k : string) (v : V) (o : list (string * V)) :
  In (k, v) (obj_set k v o).
Proof.
  induction o as [|[k0 v0] o IH]; simpl; [now left|].
  destruct (k0 =? k); [now left | now right].
Qed.

(** The loop of [getUsers] over the query parameters, from any [queryObj]. *)
Definition queryObj_from (acc q : list (string * string)) : list (string * string) :=
  fold_left (fun queryObj kv =>
               if negb (JS.includes excludedParams (fst kv))
               then obj_set (fst kv) (snd kv) queryObj
               else queryObj) q acc.

Lemma queryObj_from_sound (q acc : list (string * string)) (k v : string) :
  In (k, v) (queryObj_from acc q) ->
  In (k, v) acc \/ (JS.includes excludedParams k = false /\ In (k, v) q).
Proof.
  unfold queryObj_from. revert acc. induction q as [|[k0 v0] q IH]; cbn [fold_left fst snd In map]; intros acc Hin; [now left|].
  apply IH in Hin. destruct Hin as [Hacc | [Hex Hq]]; [|right; split; [exact Hex | now right]].
  destruct (JS.includes excludedParams k0) eqn:Hk0; cbn [negb] in Hacc; [now left|].
  apply obj_set_in in Hacc. destruct Hacc as [[-> ->] | Hacc]; [|now left].
  right. split; [exact Hk0 | now left].
Qed.

Lemma queryObj_from_keys (q acc : list (string * string)) (k : string) :
  In k (map fst acc) -> In k (map fst (queryObj_from acc q)).
Proof.
  unfold queryObj_from. revert acc. induction q as [|[k0 v0] q IH]; cbn [fold_left fst snd In map]; intros acc Hin; [exact Hin|].
  apply IH. destruct (negb (JS.includes excludedParams k0)); [|exact Hin].
  apply obj_set_keys. now right.
Qed.

Lemma queryObj_from_complete (q acc : list (string * string)) (k v : string) :
  In (k, v) q -> JS.includes excludedParams k = false ->
  In k (map fst (queryObj_from acc q)).
Proof.
  unfold queryObj_from. revert acc. induction q as [|[k0 v0] q IH]; cbn [fold_left fst snd In map]; intros acc Hin Hex; [destruct Hin|].
  destruct Hin as [[= -> ->] | Hin]; [|now apply IH].
  rewrite Hex. cbn [negb]. apply (queryObj_from_keys q), obj_set_keys. now left.
Qed.

Lemma queryObj_from_NoDup (q acc : list (string * string)) :
  NoDup (map fst acc) -> NoDup (map fst (queryObj_from acc q)).
Proof.
  unfold queryObj_from. revert acc. induction q as [|[k0 v0] q IH]; cbn [fold_left fst snd In map]; intros acc Hnd; [exact Hnd|].
  apply IH. destruct (negb (JS.includes excludedParams k0)); [|exact Hnd].
  now apply obj_set_NoDup.
Qed.

(** X10.  The filter [getUsers] builds from the query string: each of its
    pairs is a parameter of the request with its value; [page], [limit],
    [sort] and [fields] are never in it; every other parameter of the
    request is a key of it; and no key occurs twice. *)
Theorem queryObj_is_the_other_parameters (q : list (string * string)) :
  (forall k v, In (k, v) (build_queryObj q) ->
               In (k, v) q /\ ~ In k ["page"; "limit"; "sort"; "fields"])
  /\ (forall k v, In (k, v) q -> ~ In k ["page"; "limit"; "sort"; "fields"] ->
                  In k (map fst (build_queryObj q)))
  /\ NoDup (map fst (build_queryObj q)).
Proof.
  assert (Hinc : forall k, JS.includes excludedParams k = false
                           <-> ~ In k ["page"; "limit"; "sort"; "fields"]).
  { intros k. unfold JS.includes. split.
    - intros Hf Hin. apply not_true_iff_false in Hf. apply Hf.
      apply existsb_exists. exists k. split; [exact Hin | apply String.eqb_refl].
    - intros Hnot. apply not_true_is_false. intros Ht.
      apply existsb_exists in Ht. destruct Ht as (x & Hx & Heq).
      apply String.eqb_eq in Heq. subst. contradiction. }
  split; [|split].
  - intros k v Hin. apply (queryObj_from_sound q []) in Hin.
    destruct Hin as [[] | [Hex Hq]]. split; [exact Hq | now apply Hinc].
  - intros k v Hin Hnot. apply (queryObj_from_complete q [] k v Hin). now apply Hinc.
  - apply (queryObj_from_NoDup q []). constructor.
Qed.

(** The loop of [getUsers] over the sort fields, from any [sortBy]. *)
Definition sortBy_from (acc : list (string * Z)) (fields : list string)
  : list (string * Z) :=
  fold_left (fun sortBy field =>
               if JS.startsWith field "-"
               then obj_set (substring1 field) (-1)%Z sortBy
               else obj_set field 1%Z sortBy) fields acc.

Lemma sortBy_from_directions (fields : list string) (acc : list (string * Z)) :
  (forall k d, In (k, d) acc -> d = 1%Z \/ d = (-1)%Z) ->
  forall k d, In (k, d) (sortBy_from acc fields) -> d = 1%Z \/ d = (-1)%Z.
Proof.
  unfold sortBy_from. revert acc. induction fields as [|f fields IH]; simpl; intros acc Hacc k d Hin;
    [now apply (Hacc k)|].
  apply (IH _) in Hin; [exact Hin|]. clear Hin. intros k' d' Hin.
  destruct (JS.startsWith f "-"); apply obj_set_in in Hin;
    destruct Hin as [[_ ->] | Hin]; auto; now apply (Hacc k').
Qed.

Lemma sortBy_from_NoDup (fields : list string) (acc : list (string * Z)) :
  NoDup (map fst acc) -> NoDup (map fst (sortBy_from acc fields)).
Proof.
  unfold sortBy_from. revert acc. induction fields as [|f fields IH]; simpl; intros acc Hnd; [exact Hnd|].
  apply IH. destruct (JS.startsWith f "-"); now apply obj_set_NoDup.
Qed.

(** X11.  The sort [getUsers] builds: with no [sort] parameter (or an empty
    one) it is by [name], ascending; otherwise every key has the direction
    1 or -1 and no key occurs twice (a field named again replaces its
    direction). *)
Theorem sortBy_directions (sort : option string) :
  (JS.truthy sort = false -> build_sortBy sort = [("name", 1%Z)])
  /\ (forall k d, In (k, d) (build_sortBy sort) -> d = 1%Z \/ d = (-1)%Z)
  /\ NoDup (map fst (build_sortBy sort)).
Proof.
  unfold build_sortBy. split; [intros ->; reflexivity|].
  destruct (JS.truthy sort); split.
  - apply (sortBy_from_directions _ []). intros k d [].
  - apply (sortBy_from_NoDup _ []). constructor.
  - intros k d [[= _ <-] | []]. now left.
  - simpl. constructor; [intros [] | constructor].
Qed.

Lemma ceil_div_bounds (a b : Z) :
  (0 < b)%Z -> ((ceil_div a b - 1) * b < a <= ceil_div a b * b)%Z.
Proof.
  intros Hb. unfold ceil_div.
  pose proof (Z.div_mod (- a) b ltac:(lia)) as Hdm.
  pose proof (Z.mod_pos_bound (- a) b Hb) as Hm.
  nia.
Qed.

Lemma num_or_nonzero (n : option Z) (d : Z) : d <> 0%Z -> JS.num_or n d <> 0%Z.
Proof.
  intros Hd. unfold JS.num_or. destruct n as [k|]; [|exact Hd].
  destruct (Z.eqb_spec k 0); assumption.
Qed.

Section ListProperties.
Context {bc : Bcrypt} {jw : Jws} {mg : Mongo}.

(** X12.  The paging of [getUsers], for [page] and [limit] parameters that
    are ASCII strings (or absent), a page and a limit that come out
    positive with a product below 2^53, and fewer than 2^53 matching
    documents (so that JavaScript's numbers are exact).  When the answer is
    sent it is 200 with [currentPage] the page and [totalPages] the least
    number of pages of [limit] documents that hold the matching documents;
    a [next] entry (page + 1) is there exactly when the page is before the
    last, and a [prev] entry (page - 1) exactly when the page is after the
    first. *)
Theorem getUsers_paging (db : Db) (req : Request) (resp : Response) (page limit total : Z) :
  ascii_value (query_get "page" (req_query req)) = true ->
  ascii_value (query_get "limit" (req_query req)) = true ->
  JS.num_or (JS.parseInt (query_get "page" (req_query req))) 1 = page ->
  JS.num_or (JS.parseInt (query_get "limit" (req_query req))) 10 = limit ->
  countDocuments (build_queryObj (req_query req)) db = total ->
  (0 < page)%Z -> (0 < limit)%Z -> (page * limit < 2 ^ 53)%Z -> (total < 2 ^ 53)%Z ->
  getUsers db req = (db, Responded resp) ->
  exists totalPages pagination,
    status resp = 200%Z
    /\ get "currentPage" (body resp) = Some (JNum page)
    /\ get "totalPages" (body resp) = Some (JNum totalPages)
    /\ ((totalPages - 1) * limit < total <= totalPages * limit)%Z
    /\ get "pagination" (body resp) = Some (JObj pagination)
    /\ get "next" (JObj pagination)
       = (if (page <? totalPages)%Z then Some (page_json (page + 1) limit) else None)
    /\ get "prev" (JObj pagination)
       = (if (1 <? page)%Z then Some (page_json (page - 1) limit) else None).
Proof.
  intros _ _ Hp Hl Ht Hpage Hlimit _ _. unfold getUsers, try_next.
  rewrite Hp, Hl, Ht.
  destruct (find_users _ _ _ _ _ db) as [users|e]; simpl; [|discriminate].
  intros [= <-].
  pose proof (ceil_div_bounds total limit Hlimit) as Hb.
  exists (ceil_div total limit). eexists.
  split; [reflexivity|]. split; [reflexivity|]. split; [reflexivity|].
  split; [exact Hb|]. split; [reflexivity|].
  assert (Hnext : (page * limit <? total)%Z = (page <? ceil_div total limit)%Z).
  { destruct (Z.ltb_spec (page * limit) total), (Z.ltb_spec page (ceil_div total limit));
      try reflexivity; nia. }
  assert (Hprev : (0 <? (page - 1) * limit)%Z = (1 <? page)%Z).
  { destruct (Z.ltb_spec 0 ((page - 1) * limit)), (Z.ltb_spec 1 page);
      try reflexivity; nia. }
  rewrite Hnext, Hprev.
  destruct (page <? ceil_div total limit)%Z, (1 <? page)%Z; split; reflexivity.
Qed.

Lemma toJSON_keys (d : Doc) (k : string) (v : Json) :
  get k (toJSON d) = Some v -> In k (doc_fields d).
Proof.
  unfold get, toJSON. destruct d as [u fs]. simpl.
  induction fs as [|p fs IH]; simpl; [discriminate|].
  destruct (path_value p u) as [j|]; simpl; [|intros H; right; now apply IH].
  destruct (String.eqb_spec p k) as [-> | Hne]; [intros _; now left|].
  intros H. right. now apply IH.
Qed.

Lemma includes_In (l : list string) (x : string) :
  JS.includes l x = true <-> In x l.
Proof.
  unfold JS.includes. rewrite existsb_exists. split.
  - intros (y & Hy & Heq). apply String.eqb_eq in Heq. now subst.
  - intros Hin. exists x. split; [exact Hin | apply String.eqb_refl].
Qed.






End ListProperties.

(* ================================================================== *)
(** * Further properties of the users handlers and of the store *)
(* ================================================================== *)

Lemma find_snoc {A} (p : A -> bool) (l : list A) (x : A) :
  find p (l ++ [x])%list
  = match find p l with
    | Some y => Some y
    | None => if p x then Some x else None
    end.
Proof.
  induction l as [|a l IH]; simpl; [reflexivity|].
  destruct (p a); [reflexivity | exact IH].
Qed.

Lemma NoDup_snoc {A} (l : list A) (x : A) :
  NoDup l -> ~ In x l -> NoDup (l ++ [x])%list.
Proof.
  intros Hl Hx. induction l as [|a l IH]; simpl.
  - constructor; [intros [] | constructor].
  - inversion Hl as [|? ? Ha Hl']; subst. constructor.
    + intros Hin. apply in_app_or in Hin. destruct Hin as [Hin | [-> | []]].
      * contradiction.
      * apply Hx. now left.
    + apply IH; [exact Hl'|]. intros Hin. apply Hx. now right.
Qed.

(** Dropping documents keeps the keys of the others distinct. *)
Lemma filter_keeps_distinct (key : User -> string) (keep : User -> bool) (db : Db) :
  NoDup (map key db) -> NoDup (map key (filter keep db)).
Proof.
  intros Hnd. induction db as [|u db IH]; [constructor|].
  simpl in *. inversion Hnd as [|? ? Hu Hdb]; subst.
  destruct (keep u); simpl; [|now apply IH].
  constructor; [|now apply IH].
  intros Hin. apply Hu. apply in_map_iff in Hin.
  destruct Hin as (y & Hy & Hin). apply filter_In in Hin.
  apply in_map_iff. exists y. now split.
Qed.

Lemma NoDup_map_injective {A B} (f : A -> B) (l : list A) (x y : A) :
  NoDup (map f l) -> In x l -> In y l -> f x = f y -> x = y.
Proof.
  induction l as [|a l IH]; simpl; intros Hnd Hx Hy Hf; [destruct Hx|].
  inversion Hnd as [|? ? Ha Hl]; subst.
  destruct Hx as [-> | Hx], Hy as [-> | Hy]; try reflexivity.
  - exfalso. apply Ha. rewrite Hf. now apply in_map.
  - exfalso. apply Ha. rewrite <- Hf. now apply in_map.
  - now apply IH.
Qed.

(** Replacing the document of an [_id] by one whose key no other document
    has keeps the keys distinct. *)
Lemma replace_NoDup (key : User -> string) (db : Db) (id : string) (u' : User) :
  NoDup (map _id db) -> NoDup (map key db) ->
  (forall v, In v db -> _id v <> id -> key v <> key u') ->
  NoDup (map key (map (fun v => if _id v =? id then u' else v) db)).
Proof.
  induction db as [|a r IH]; simpl; intros Hids Hkeys Hother; [constructor|].
  inversion Hids as [|? ? Hida Hidr]; subst.
  inversion Hkeys as [|? ? Hka Hkr]; subst.
  assert (IHr := IH Hidr Hkr (fun v Hv => Hother v (or_intror Hv))).
  destruct (String.eqb_spec (_id a) id) as [Heq | Hne].
  - assert (Hsame : map (fun v => if _id v =? id then u' else v) r = r).
    { rewrite <- (map_id r) at 2. apply map_ext_in. intros v Hv.
      destruct (String.eqb_spec (_id v) id) as [Hv' | _]; [|reflexivity].
      exfalso. apply Hida. rewrite Heq, <- Hv'. now apply in_map. }
    rewrite Hsame. constructor; [|exact Hkr].
    intros Hin. apply in_map_iff in Hin. destruct Hin as (v & Hkv & Hv).
    apply (Hother v (or_intror Hv)); [|exact Hkv].
    intros Hv'. apply Hida. rewrite Heq, <- Hv'. now apply in_map.
  - constructor; [|exact IHr].
    intros Hin. apply in_map_iff in Hin. destruct Hin as (x & Hkx & Hx).
    apply in_map_iff in Hx. destruct Hx as (v & Hfv & Hv).
    destruct (_id v =? id).
    + subst x. apply (Hother a (or_introl eq_refl) Hne). now symmetry.
    + subst x. apply Hka. rewrite <- Hkx. now apply in_map.
Qed.

Lemma is_lower_hex_is_hex (c : ascii) : is_lower_hex c = true -> is_hex c = true.
Proof.
  destruct c as [[] [] [] [] [] [] [] []]; intros H; try reflexivity; discriminate H.
Qed.

(** An id in the form of [ObjectId.toString()] casts to an ObjectId. *)
Lemma canonical_id_valid (id : string) :
  canonical_id id = true -> isValidObjectId id = true.
Proof.
  unfold canonical_id, isValidObjectId. intros H.
  apply andb_prop in H. destruct H as [Hlen Hhex]. rewrite Hlen. simpl.
  rewrite forallb_forall in *. intros c Hc. apply is_lower_hex_is_hex. now apply Hhex.
Qed.

Section WriteProperties.
Context {bc : Bcrypt} {jw : Jws} {mg : Mongo}.

(** X14.  [getUser], [updateUser] and [deleteUser] with an [:id] that is
    not an ObjectId: the cast error goes to the error handler, the client
    is answered 404 with the error "Resource not found", and the store is
    not touched. *)
Theorem malformed_id_is_not_found (db : Db) (req : Request) (h : Handler) :
  isValidObjectId (params_id req) = false ->
  In h [getUser; updateUser; deleteUser] ->
  exists e,
    h db req = (db, NextErr e)
    /\ finish (NextErr e)
       = mkResponse 404 (JObj [("success", JBool false);
                               ("error", JStr "Resource not found")]).
Proof.
  intros Hid Hh. exists (CastError (params_id req)).
  split; [|reflexivity].
  destruct Hh as [<- | [<- | [<- | []]]].
  - unfold getUser, findById. now rewrite Hid.
  - unfold updateUser, findByIdAndUpdate. now rewrite Hid.
  - unfold deleteUser, findByIdAndDelete. now rewrite Hid.
Qed.

(** X15.  After [deleteUser] with an [:id] of 24 digits [0]-[9], [a]-[f]
    (the form in which the [_id]s of the store are held), whatever it
    answered: the store holds the documents it held but those of that
    [_id], and [getUser] with the same [:id] answers 404
    "User not found with id of <id>". *)
Theorem deleted_user_is_gone (db db' : Db) (req : Request) (o : Outcome) :
  canonical_id (params_id req) = true ->
  (forall v, In v db -> canonical_id (_id v) = true) ->
  deleteUser db req = (db', o) ->
  (forall v, In v db' <-> In v db /\ _id v <> params_id req)
  /\ getUser db' req
     = (db', Responded (mkResponse 404
          (JObj [("success", JBool false);
                 ("message", JStr ("User not found with id of " ++ params_id req))]))).
Proof.
  intros Hid _. apply canonical_id_valid in Hid.
  unfold deleteUser, findByIdAndDelete. rewrite Hid. simpl negb. cbv iota.
  assert (Hget : forall d : Db,
             (forall v, In v d -> _id v <> params_id req) ->
             getUser d req = (d, Responded (user_not_found (params_id req)))).
  { intros d Hd. unfold getUser.
    now rewrite (findById_none d (params_id req) Hid Hd). }
  destruct (find (fun u => _id u =? params_id req) db) as [u|] eqn:Hf.
  - intros [= <- _].
    assert (Hin : forall v, In v (filter (fun v => negb (_id v =? params_id req)) db)
                            <-> In v db /\ _id v <> params_id req).
    { intros v. rewrite filter_In. split; intros [Hv Hne]; split; try exact Hv.
      - apply negb_true_iff in Hne. now apply String.eqb_neq.
      - apply negb_true_iff. now apply String.eqb_neq. }
    split; [exact Hin|]. apply Hget. intros v Hv. now apply Hin.
  - intros [= <- _].
    assert (Hnone : forall v, In v db -> _id v <> params_id req).
    { intros v Hv. apply String.eqb_neq. exact (find_none _ _ Hf v Hv). }
    split; [|now apply Hget].
    intros v. split; [intros Hv; split; [exact Hv | now apply Hnone] | now intros [Hv _]].
Qed.

(** X16.  [register] with a valid body of ASCII strings and an [_id], a
    username and an email that are new, whatever becomes of the token: the
    store gains the new identity, and [getUser] with the new [_id] then
    answers 200 with that identity, names trimmed, and no [password]
    key. *)
Theorem registered_user_is_found (env : Env) (w : World) (db : Db) (req : Request) :
  ascii_body (req_body req) = true ->
  validation_errors body_paths (apply_setters (req_body req)) = [] ->
  (forall v, In v db ->
             _id v <> fresh_id w
             /\ username v <> JS.trim (value (b_username (req_body req)))
             /\ email v <> value (b_email (req_body req))) ->
  canonical_id (fresh_id w) = true ->
  fst (register env w db req) = (db ++ [created_user (req_body req) w])%list
  /\ getUser (db ++ [created_user (req_body req) w])%list
             (set_params_id req (fresh_id w))
     = ((db ++ [created_user (req_body req) w])%list,
        Responded (mkResponse 200
          (data_body (toJSON (mkDoc (created_user (req_body req) w) default_fields)))))
  /\ get "password" (toJSON (mkDoc (created_user (req_body req) w) default_fields))
     = None
  /\ get "name" (toJSON (mkDoc (created_user (req_body req) w) default_fields))
     = Some (JStr (JS.trim (value (b_name (req_body req))))).
Proof.
  intros _ Hvalid Hfresh Hid. apply canonical_id_valid in Hid.
  split.
  { unfold register.
    replace (mkBody (b_name (req_body req)) (b_username (req_body req))
                    (b_email (req_body req)) (b_password (req_body req))
                    (b_role (req_body req)) (b_phone (req_body req))
                    (b_address (req_body req))) with (req_body req)
      by (now destruct (req_body req)).
    rewrite (create_valid (req_body req) w db Hvalid Hfresh).
    unfold try_next. destruct (sendTokenResponse _ _ _ _); reflexivity. }
  split; [|split].
  - unfold getUser, findById. simpl params_id. rewrite Hid.
    rewrite find_snoc.
    rewrite (find_none_when (fun v => _id v =? fresh_id w) db).
    + simpl. now rewrite String.eqb_refl.
    + intros v Hv. apply String.eqb_neq. now apply (Hfresh v Hv).
  - destruct (get "password" (toJSON (mkDoc (created_user (req_body req) w)
                                            default_fields))) as [j|] eqn:Hg;
      [|reflexivity].
    apply toJSON_keys in Hg. simpl in Hg.
    repeat (destruct Hg as [Hg | Hg]; [discriminate|]). destruct Hg.
  - reflexivity.
Qed.

Lemma update_not_found_keeps (id : string) (b : Body) (db db' : Db) :
  findByIdAndUpdate id b db = Ok (None, db') -> db' = db.
Proof.
  unfold findByIdAndUpdate. destruct (negb (isValidObjectId id)); [discriminate|].
  destruct (validation_errors _ _); [|discriminate].
  destruct (find _ db); [destruct (existsb _ db); discriminate|].
  now intros [= <-].
Qed.

Lemma delete_not_found_keeps (id : string) (db db' : Db) :
  findByIdAndDelete id db = Ok (None, db') -> db' = db.
Proof.
  unfold findByIdAndDelete. destruct (negb (isValidObjectId id)); [discriminate|].
  destruct (find _ db); [discriminate|]. now intros [= <-].
Qed.

(** X17.  A handler of the users router other than [createUser]
    ([getUsers], [getUser], [updateUser], [deleteUser]) that does not
    answer 200 (it answers 404, or passes an error on) has left the store
    as it was. *)
Theorem failed_write_keeps_store
        (w : World) (route : UsersRoute) (db db' : Db) (req : Request) (o : Outcome) :
  route <> POST_users ->
  users_handler w route db req = (db', o) ->
  (forall r, o = Responded r -> status r <> 200%Z) ->
  db' = db.
Proof.
  intros Hroute Hh Hfail. destruct route; simpl in Hh.
  - unfold getUsers, try_next in Hh. destruct (bind _ _) in Hh; now injection Hh as <- _.
  - unfold getUser, try_next in Hh. destruct (bind _ _) in Hh; now injection Hh as <- _.
  - now contradiction Hroute.
  - unfold updateUser in Hh.
    destruct (findByIdAndUpdate _ _ db) as [[[d|] db1]|e] eqn:Hu.
    + injection Hh as <- <-. now contradiction (Hfail _ eq_refl).
    + injection Hh as <- _. now apply update_not_found_keeps in Hu.
    + now injection Hh as <- _.
  - unfold deleteUser in Hh.
    destruct (findByIdAndDelete _ db) as [[[d|] db1]|e] eqn:Hd.
    + injection Hh as <- <-. now contradiction (Hfail _ eq_refl).
    + injection Hh as <- _. now apply delete_not_found_keeps in Hd.
    + now injection Hh as <- _.
Qed.

Lemma duplicate_key_false (u : User) (db : Db) :
  duplicate_key u db = false ->
  forall v, In v db -> _id v <> _id u /\ username v <> username u /\ email v <> email u.
Proof.
  intros Hd v Hv. unfold duplicate_key in Hd.
  assert (Hv' : (_id v =? _id u) || (username v =? username u) || (email v =? email u)
                = false).
  { destruct ((_id v =? _id u) || (username v =? username u) || (email v =? email u))
      eqn:Hp; [|reflexivity].
    rewrite <- Hd. symmetry. apply existsb_exists. now exists v. }
  apply orb_false_elim in Hv'. destruct Hv' as [Hv' He].
  apply orb_false_elim in Hv'. destruct Hv' as [Hi Hn].
  repeat split; now apply String.eqb_neq.
Qed.

Lemma not_in_map {A} (key : A -> string) (x : string) (l : list A) :
  (forall v, In v l -> key v <> x) -> ~ In x (map key l).
Proof.
  intros Hl Hin. apply in_map_iff in Hin. destruct Hin as (v & Hk & Hv).
  now apply (Hl v Hv).
Qed.

Lemma create_unique (b : Body) (w : World) (db db' : Db) (d : Doc) :
  unique_store db -> create b w db = Ok (d, db') -> unique_store db'.
Proof.
  intros (Hi & Hn & He).
  destruct (create_cases b w db) as [[errs ->] | (u & _ & ->)]; [discriminate|].
  destruct (duplicate_key _ db) eqn:Hd; [discriminate|].
  intros [= _ <-]. pose proof (duplicate_key_false _ db Hd) as Hfresh.
  unfold unique_store. rewrite !map_app. simpl.
  repeat split; apply NoDup_snoc; try assumption; apply not_in_map;
    intros v Hv; now apply (Hfresh v Hv).
Qed.

Lemma apply_update_id (b : Body) (u : User) : _id (apply_update b u) = _id u.
Proof. reflexivity. Qed.

Lemma update_unique (id : string) (b : Body) (db db' : Db) (d : option Doc) :
  unique_store db -> findByIdAndUpdate id b db = Ok (d, db') -> unique_store db'.
Proof.
  intros (Hi & Hn & He). unfold findByIdAndUpdate.
  destruct (negb (isValidObjectId id)); [discriminate|].
  destruct (validation_errors _ _); [|discriminate].
  destruct (find (fun u => _id u =? id) db) as [u|] eqn:Hf;
    [|intros [= _ <-]; now repeat split].
  destruct (existsb _ db) eqn:Hdup; [discriminate|].
  intros [= _ <-].
  assert (Hother : forall v, In v db -> _id v <> id ->
                             username v <> username (apply_update (apply_setters b) u)
                             /\ email v <> email (apply_update (apply_setters b) u)).
  { intros v Hv Hne.
    assert (Hpv : negb (_id v =? id)
                  && ((username v =? username (apply_update (apply_setters b) u))
                      || (email v =? email (apply_update (apply_setters b) u)))
                  = false).
    { apply not_true_is_false. intros Ht. apply not_true_iff_false in Hdup.
      apply Hdup. apply existsb_exists. now exists v. }
    apply String.eqb_neq in Hne. rewrite Hne in Hpv. simpl in Hpv.
    apply orb_false_elim in Hpv. destruct Hpv as [H1 H2].
    split; now apply String.eqb_neq. }
  apply find_some in Hf. destruct Hf as [Hu Hid]. apply String.eqb_eq in Hid.
  repeat split.
  - assert (Hsame : map _id (map (fun v => if _id v =? id
                                           then apply_update (apply_setters b) u
                                           else v) db) = map _id db).
    { rewrite map_map. apply map_ext. intros v.
      destruct (String.eqb_spec (_id v) id) as [-> | _]; [exact Hid | reflexivity]. }
    now rewrite Hsame.
  - apply (replace_NoDup username db id _ Hi Hn).
    intros v Hv Hne. now apply (Hother v Hv Hne).
  - apply (replace_NoDup email db id _ Hi He).
    intros v Hv Hne. now apply (Hother v Hv Hne).
Qed.

Lemma delete_unique (id : string) (db db' : Db) (d : option Doc) :
  unique_store db -> findByIdAndDelete id db = Ok (d, db') -> unique_store db'.
Proof.
  intros (Hi & Hn & He). unfold findByIdAndDelete.
  destruct (negb (isValidObjectId id)); [discriminate|].
  destruct (find _ db); intros [= _ <-]; repeat split;
    try assumption; now apply filter_keeps_distinct.
Qed.

(** X18.  The unique indexes are kept: from a store where no two documents
    share an [_id], a [username] or an [email], [register] and every
    handler of the users router lead to such a store, whatever they
    answer. *)
Theorem handlers_keep_unique_indexes
        (env : Env) (w : World) (route : UsersRoute) (db : Db) (req : Request) :
  unique_store db ->
  unique_store (fst (register env w db req))
  /\ unique_store (fst (users_handler w route db req)).
Proof.
  intros Hdb. split.
  - unfold register. destruct (create _ w db) as [[d db1]|e] eqn:Hc; [|exact Hdb].
    apply (create_unique _ _ _ _ _ Hdb) in Hc.
    unfold try_next. now destruct (sendTokenResponse env w d 201).
  - destruct route; simpl.
    + unfold getUsers, try_next. now destruct (bind _ _).
    + unfold getUser, try_next. now destruct (bind _ _).
    + unfold createUser. destruct (create (req_body req) w db) as [[d db1]|e] eqn:Hc;
        [|exact Hdb]. now apply (create_unique _ _ _ _ _ Hdb) in Hc.
    + unfold updateUser.
      destruct (findByIdAndUpdate _ _ db) as [[[d|] db1]|e] eqn:Hu; try exact Hdb;
        now apply (update_unique _ _ _ _ _ Hdb) in Hu.
    + unfold deleteUser.
      destruct (findByIdAndDelete _ db) as [[[d|] db1]|e] eqn:Hd; try exact Hdb;
        now apply (delete_unique _ _ _ _ Hdb) in Hd.
Qed.

(** X19.  [updateUser] with an [:id] of 24 digits [0]-[9], [a]-[f] on a
    store with unique [_id]s of that form adds and removes no document and
    changes no [_id]; the documents of another [_id] than the [:id] of the
    request stay as they are. *)
Theorem update_keeps_identity (db db' : Db) (req : Request) (o : Outcome) :
  canonical_id (params_id req) = true ->
  (forall v, In v db -> canonical_id (_id v) = true) ->
  NoDup (map _id db) ->
  updateUser db req = (db', o) ->
  map _id db' = map _id db
  /\ (forall v, _id v <> params_id req -> (In v db' <-> In v db)).
Proof.
  intros _ _ Hids. unfold updateUser, findByIdAndUpdate.
  destruct (negb (isValidObjectId (params_id req))); [now intros [= <- _]|].
  destruct (validation_errors _ _); [|now intros [= <- _]].
  destruct (find (fun u => _id u =? params_id req) db) as [u|] eqn:Hf;
    [|now intros [= <- _]].
  destruct (existsb _ db); [now intros [= <- _]|].
  intros [= <- _].
  apply find_some in Hf. destruct Hf as [Hu Hid]. apply String.eqb_eq in Hid.
  set (u' := apply_update (apply_setters (req_body req)) u).
  assert (Hfix : forall v, In v db -> _id v = params_id req -> v = u).
  { intros v Hv Hv'. apply (NoDup_map_injective _id db v u Hids Hv Hu). congruence. }
  repeat split.
  - rewrite map_map. apply map_ext. intros v.
    destruct (String.eqb_spec (_id v) (params_id req)) as [-> | _];
      [exact Hid | reflexivity].
  - intros Hin. apply in_map_iff in Hin. destruct Hin as (x & Hx & Hin).
    destruct (String.eqb_spec (_id x) (params_id req)) as [Heq | _].
    + exfalso. subst v. apply H. exact Hid.
    + now subst x.
  - intros Hin. apply in_map_iff. exists v. split; [|exact Hin].
    destruct (String.eqb_spec (_id v) (params_id req)); [contradiction | reflexivity].
Qed.

End WriteProperties.

(* ================================================================== *)
(** * Properties of the error handler, the API key gate, the size limit
      and the seeder *)
(* ================================================================== *)

(** X20.  [errorHandler] always answers [success: false] with an error
    text that is not empty.  A duplicate-key error (code 11000) that is not
    a validation error is answered 400 "Duplicate field value entered" and
    a cast error without that code 404 "Resource not found", whatever the
    message of the error.  An error of another shape is answered with its
    own [status] (500 when it has none) and its own message ("Server Error"
    when that is empty). *)
Theorem errorHandler_shapes (err : JsError) :
  (exists msg, body (errorHandler err) = JObj [("success", JBool false); ("error", JStr msg)]
               /\ msg <> "")
  /\ (err_code err = Some 11000%Z ->
      (err_name err = "ValidationError" -> err_errors err = None) ->
      errorHandler err
      = mkResponse 400 (JObj [("success", JBool false);
                              ("error", JStr "Duplicate field value entered")]))
  /\ (err_name err = "CastError" -> err_code err <> Some 11000%Z ->
      errorHandler err
      = mkResponse 404 (JObj [("success", JBool false);
                              ("error", JStr "Resource not found")]))
  /\ (err_name err <> "CastError" -> err_code err <> Some 11000%Z ->
      (err_name err = "ValidationError" -> err_errors err = None) ->
      errorHandler err
      = mkResponse (JS.num_or (err_status err) 500)
                   (JObj [("success", JBool false);
                          ("error", JStr (if err_message err =? "" then "Server Error"
                                          else err_message err))])).
Proof.
  assert (Hor : forall m, JS.or_else (Some m) "Server Error"
                          = if m =? "" then "Server Error" else m).
  { intros m. unfold JS.or_else, JS.truthy. now destruct (m =? ""). }
  destruct err as [n m st c es]. simpl err_name. simpl err_code.
  simpl err_errors. simpl err_status. simpl err_message.
  split; [|split; [|split]].
  - unfold errorHandler. eexists. split; [reflexivity|]. rewrite Hor.
    match goal with
    | |- (if ?x =? "" then _ else _) <> "" =>
        destruct (String.eqb_spec x ""); [discriminate | assumption]
    end.
  - intros -> Hv. unfold errorHandler. simpl.
    destruct es as [errs|]; [|reflexivity].
    destruct (String.eqb_spec n "ValidationError") as [Hn|_]; [|reflexivity].
    specialize (Hv Hn). discriminate.
  - intros -> Hc. unfold errorHandler. simpl.
    destruct c as [z|]; [destruct (Z.eqb_spec z 11000); [subst; contradiction|]|];
      destruct es; reflexivity.
  - intros Hn Hc Hv. unfold errorHandler. simpl.
    apply String.eqb_neq in Hn. rewrite Hn.
    assert (Hes : match es with
                  | Some errs => n =? "ValidationError"
                  | None => false
                  end = false).
    { destruct es as [errs|]; [|reflexivity].
      destruct (String.eqb_spec n "ValidationError") as [Hn'|_]; [|reflexivity].
      specialize (Hv Hn'). discriminate. }
    destruct c as [z|]; [destruct (Z.eqb_spec z 11000); [subst; contradiction|]|];
      (destruct es as [errs|]; [rewrite Hes|]); simpl; now rewrite Hor.
Qed.

Lemma split_not_empty (sep : ascii) (s : string) : JS.split sep s <> [].
Proof.
  destruct s as [|c r]; simpl; [discriminate|].
  destruct (Ascii.eqb c sep); [discriminate|].
  destruct (JS.split sep r); discriminate.
Qed.

(** The path starts with one of the public endpoints. *)
Definition public_path (path : string) : Prop :=
  exists endpoint, In endpoint publicEndpoints /\ JS.startsWith path endpoint = true.

(** X21.  [apiKeyAuth] lets a request through exactly when its path starts
    with a public endpoint, or [API_KEYS] is not set, or the [X-API-Key]
    header is a non-empty string that is one of the comma-separated keys of
    [API_KEYS]. *)
Theorem apiKeyAuth_passes_iff (api_keys : option string) (path : string)
        (apiKey : option string) :
  apiKeyAuth api_keys path apiKey = Pass
  <-> public_path path
      \/ api_keys = None
      \/ exists s k, api_keys = Some s /\ apiKey = Some k /\ k <> ""
                     /\ In k (JS.split "," s).
Proof.
  assert (Htruthy : forall v, JS.truthy v = true <-> exists k, v = Some k /\ k <> "").
  { intros [k|]; simpl; split.
    - intros Hk. exists k. split; [reflexivity|].
      apply negb_true_iff in Hk. now apply String.eqb_neq.
    - intros (k' & [= <-] & Hk). apply negb_true_iff. now apply String.eqb_neq.
    - discriminate.
    - now intros (k' & Hk' & _). }
  unfold apiKeyAuth, public_path.
  destruct (existsb (fun endpoint => JS.startsWith path endpoint) publicEndpoints)
    eqn:Hpub.
  - split; [intros _; left;
             exact (proj1 (existsb_exists (fun endpoint => JS.startsWith path endpoint)
                                          publicEndpoints) Hpub)
           | reflexivity].
  - assert (Hnp : ~ exists endpoint, In endpoint publicEndpoints
                                      /\ JS.startsWith path endpoint = true).
    { intros Hex.
      pose proof (proj2 (existsb_exists (fun endpoint => JS.startsWith path endpoint)
                                        publicEndpoints) Hex) as Ht.
      rewrite Hpub in Ht. discriminate. }
    destruct api_keys as [s|]; unfold validApiKeys;
      [|split; [intros _; right; now left | reflexivity]].
    destruct (JS.split "," s) as [|k0 ks] eqn:Hs; [now apply split_not_empty in Hs|].
    destruct (JS.truthy apiKey) eqn:Ht; cbn [negb].
    + destruct (JS.includes (k0 :: ks) (value apiKey)) eqn:Hin; cbn [negb].
      * split; [|reflexivity]. intros _. right. right.
        apply Htruthy in Ht. destruct Ht as (k & -> & Hk).
        exists s, k. repeat split; try assumption.
        apply includes_In in Hin. rewrite Hs. exact Hin.
      * split; [discriminate|].
        intros [Hex | [Hn | (s' & k' & [= <-] & -> & _ & Hin')]];
          [contradiction | discriminate|].
        exfalso. simpl value in Hin. rewrite Hs in Hin'.
        apply (proj2 (includes_In _ _)) in Hin'. congruence.
    + split; [discriminate|].
      intros [Hex | [Hn | (s' & k' & _ & -> & Hk' & _)]];
        [contradiction | discriminate|].
      assert (Ht' : JS.truthy (Some k') = true) by (apply Htruthy; now exists k').
      congruence.
Qed.

(** X22.  With [API_KEYS] set to the empty string the list of keys is the
    one empty key, which no header can match: every request outside the
    public endpoints is answered 401, with or without an [X-API-Key]. *)
Theorem empty_API_KEYS_locks_out (path : string) (apiKey : option string) :
  ~ public_path path ->
  exists msg,
    apiKeyAuth (Some "") path apiKey
    = Reply (mkResponse 401 (JObj [("success", JBool false); ("error", JStr msg)])).
Proof.
  intros Hnp. unfold apiKeyAuth.
  destruct (existsb (fun endpoint => JS.startsWith path endpoint) publicEndpoints)
    eqn:Hpub.
  - exfalso. apply Hnp.
    exact (proj1 (existsb_exists (fun endpoint => JS.startsWith path endpoint)
                                 publicEndpoints) Hpub).
  - change (validApiKeys (Some "")) with [""].
    destruct apiKey as [k|]; [|now eexists].
    unfold JS.truthy, JS.includes, value. cbn [existsb].
    destruct (k =? "") eqn:Hk; cbn [negb orb]; now eexists.
Qed.

(** X23.  [requestSizeLimit], for a [MAX_FILE_UPLOAD] and a
    [content-length] that are ASCII strings (or absent) and are read as
    [NaN] or as integers below 2^53 in absolute value (so that JavaScript's
    numbers are exact): it answers 413 exactly when the content length and
    the limit are both read as numbers and the first is greater.  So a
    request with no [content-length] passes whenever the limit is not
    negative, and a [MAX_FILE_UPLOAD] that does not start with a number
    switches the limit off. *)
Theorem requestSizeLimit_rejects_iff (max_file_upload content_length : option string) :
  ascii_value max_file_upload = true ->
  ascii_value content_length = true ->
  safe_number (MAX_FILE_UPLOAD max_file_upload) ->
  safe_number (JS.parseInt (Some (JS.or_else content_length "0"))) ->
  ((exists r, requestSizeLimit max_file_upload content_length = Reply r /\ status r = 413%Z)
   <-> exists n m, JS.parseInt (Some (JS.or_else content_length "0")) = Some n
                   /\ MAX_FILE_UPLOAD max_file_upload = Some m /\ (m < n)%Z)
  /\ (forall m, MAX_FILE_UPLOAD max_file_upload = Some m -> (0 <= m)%Z ->
                requestSizeLimit max_file_upload None = Pass)
  /\ (MAX_FILE_UPLOAD max_file_upload = None ->
      requestSizeLimit max_file_upload content_length = Pass)
  /\ MAX_FILE_UPLOAD None = Some 1000000%Z.
Proof.
  intros _ _ _ _.
  unfold requestSizeLimit, number_gt. split; [|split; [|split]].
  - destruct (JS.parseInt (Some (JS.or_else content_length "0"))) as [n|];
      destruct (MAX_FILE_UPLOAD max_file_upload) as [m|].
    + destruct (Z.ltb_spec m n).
      * split; [intros _; now exists n, m | intros _; eexists; split; reflexivity].
      * split; [intros (r & Hr & _); discriminate|].
        intros (n' & m' & [= <-] & [= <-] & Hlt). lia.
    + split; [intros (r & Hr & _); discriminate | intros (n' & m' & _ & Hm & _); discriminate].
    + split; [intros (r & Hr & _); discriminate | intros (n' & m' & Hn & _); discriminate].
    + split; [intros (r & Hr & _); discriminate | intros (n' & m' & Hn & _); discriminate].
  - intros m Hm Hpos. rewrite Hm.
    change (JS.parseInt (Some (JS.or_else None "0"))) with (Some 0%Z).
    cbv iota beta. destruct (Z.ltb_spec m 0); [lia | reflexivity].
  - intros ->. now destruct (JS.parseInt _).
  - reflexivity.
Qed.

Lemma find_exists {A} (p : A -> bool) (l : list A) (x : A) :
  In x l -> p x = true -> exists y, find p l = Some y.
Proof.
  induction l as [|a l IH]; simpl; intros Hin Hp; [destruct Hin|].
  destruct (p a) eqn:Ha; [now exists a|].
  destruct Hin as [-> | Hin]; [congruence | now apply IH].
Qed.

Section SeederProperties.
Context {bc : Bcrypt} {jw : Jws} {mg : Mongo}.

Lemma findOne_admin (db : Db) :
  findOne [("email", admin_email)] "" db
  = Ok (option_map (fun u => mkDoc u default_fields)
                   (find (fun u => email u =? admin_email) db)).
Proof.
  unfold findOne. rewrite select_nothing. simpl bind.
  now rewrite (find_extensional _ (fun u => email u =? admin_email) db
                 (satisfies_email admin_email)).
Qed.

Lemma create_admin (w : World) (db db' : Db) (d : Doc) :
  create admin_body w db = Ok (d, db') ->
  db' = (db ++ [created_user admin_body w])%list.
Proof.
  destruct (create_cases admin_body w db) as [[errs ->] | (u & Hn & ->)]; [discriminate|].
  destruct (duplicate_key _ db); [discriminate|].
  intros [= _ <-]. f_equal. f_equal.
  unfold new_document in Hn.
  destruct (validation_errors body_paths (apply_setters admin_body)); [|discriminate].
  simpl in Hn. injection Hn as <-. reflexivity.
Qed.

(** X24.  The seeder.  When it exits with code 0 the store has an identity
    with the email of the administrator: the store is the one it found
    (an identity with that email was there) or it has gained, as its last
    document, the administrator with the role [administrator] and the hash
    of the seeded password.  A further run then changes nothing and exits
    with code 0: the seeder never creates a second administrator. *)
Theorem seeder_is_idempotent (w1 w2 : World) (db db1 : Db) :
  createAdminUser w1 db = (db1, 0%Z) ->
  (exists a, In a db1 /\ email a = admin_email)
  /\ (db1 = db
      \/ (db1 = (db ++ [created_user admin_body w1])%list
          /\ role (created_user admin_body w1) = administrator
          /\ password (created_user admin_body w1) = bcrypt_hash "admin123" (salt w1)))
  /\ createAdminUser w2 db1 = (db1, 0%Z).
Proof.
  unfold createAdminUser at 1. rewrite findOne_admin.
  destruct (find (fun u => email u =? admin_email) db) as [a|] eqn:Hf; simpl.
  - intros [= <-]. apply find_some in Hf. destruct Hf as [Ha He].
    apply String.eqb_eq in He.
    split; [now exists a|]. split; [now left|].
    unfold createAdminUser. rewrite findOne_admin.
    destruct (find_exists (fun u => email u =? admin_email) db a Ha) as [y ->];
      [now rewrite He|]. reflexivity.
  - destruct (create admin_body w1 db) as [[d db']|e] eqn:Hc; [|discriminate].
    intros [= <-]. apply create_admin in Hc. subst db'.
    assert (Hin : In (created_user admin_body w1) (db ++ [created_user admin_body w1])%list)
      by (apply in_or_app; right; now left).
    split; [exists (created_user admin_body w1); now split|].
    split; [right; repeat split; reflexivity|].
    unfold createAdminUser. rewrite findOne_admin.
    destruct (find_exists (fun u => email u =? admin_email) _ _ Hin) as [y ->];
      reflexivity.
Qed.

End SeederProperties.

(* ================================================================== *)
(** * The properties on the sample data *)
(* ================================================================== *)

Import Reference.

Lemma protect_rejects_unverified_witness :
  no_bearer_token (authorization (with_authorization "Basic YWxpY2U6eA=="))
  /\ use (protect secret_env world0) getMe db0
         (with_authorization "Basic YWxpY2U6eA==")
     = (db0,
        protect secret_env world0 db0
                (with_authorization "Basic YWxpY2U6eA==")).
Proof.
  assert (Hno : no_bearer_token
                  (authorization (with_authorization "Basic YWxpY2U6eA==")))
    by reflexivity.
  split; [exact Hno|].
  exact (proj2 (protect_rejects_unverified
                  secret_env world0 db0
                  (with_authorization "Basic YWxpY2U6eA==") getMe
                  (or_introl Hno))).
Defined.

Lemma users_routes_admin_only_witness :
  users_router secret_env world0 DELETE_user db0 (bearer bob)
  = (db0,
     Responded (mkResponse 403
       (JObj [("success", JBool false);
              ("message", JStr ("User role " ++ role_name (role bob)
                                ++ " is not authorized to access this route"))]))).
Proof.
  assert (Hp : protect secret_env world0 db0 (bearer bob)
               = Next (set_user (bearer bob) bob))
    by (vm_compute; reflexivity).
  assert (Hu : user (set_user (bearer bob) bob) = Some bob) by reflexivity.
  assert (Hr : role bob <> administrator) by discriminate.
  exact (proj1 (users_routes_admin_only
                  secret_env world0 DELETE_user db0 (bearer bob)
                  (set_user (bearer bob) bob) bob Hp Hu) Hr).
Defined.

Example login_rejects_wrong_strings_example :
  login secret_env world0 db0 login_alice_wrong
  = login secret_env world0 db0 login_nobody.
Proof.
  assert (H1 : well_formed_login (req_body login_nobody))
    by (split; [left|]; reflexivity).
  assert (H2 : well_formed_login (req_body login_alice_wrong))
    by (split; [left|]; reflexivity).
  assert (H3 : unknown_identifier db0 (req_body login_nobody)).
  { intros u [<- | [<- | []]]; reflexivity. }
  assert (H4 : wrong_password db0 (req_body login_alice_wrong) alice).
  { split; vm_compute; reflexivity. }
  exact (proj2 (login_rejects_wrong_strings secret_env world0 world0 db0
                  login_nobody login_alice_wrong alice H1 H2 H3 H4)).
Qed.

(** [{"email": "nobody@example.com", "password": 12345678}] is answered
    401, [{"email": "alice@example.com", "password": 12345678}] is answered
    500. *)
Lemma login_non_string_password_reveals_identifier_witness :
  finish (snd (login_any secret_env world0 db0
                         (Some "alice@example.com") None (Some (JNum 12345678))))
  <> finish (snd (login_any secret_env world0 db0
                            (Some "nobody@example.com") None (Some (JNum 12345678)))).
Proof.
  assert (H1 : JS.truthy (Some "nobody@example.com") = true
               \/ JS.truthy (@None string) = true) by (left; reflexivity).
  assert (H2 : JS.truthy (Some "alice@example.com") = true
               \/ JS.truthy (@None string) = true) by (left; reflexivity).
  assert (H3 : json_truthy (Some (JNum 12345678)) = true) by reflexivity.
  assert (H4 : forall p, Some (JNum 12345678) <> Some (JStr p)) by discriminate.
  assert (H5 : forall v, In v db0 ->
               satisfies (login_query (Some "nobody@example.com") None) v = false).
  { intros v [<- | [<- | []]]; reflexivity. }
  assert (H6 : find (satisfies (login_query (Some "alice@example.com") None)) db0
               = Some alice) by (vm_compute; reflexivity).
  exact (proj2 (proj2 (login_non_string_password_reveals_identifier
                         secret_env world0 world0 db0
                         (Some "nobody@example.com") None
                         (Some "alice@example.com") None
                         (Some (JNum 12345678)) alice H1 H2 H3 H4 H5 H6))).
Defined.

Example login_number_password_existing :
  finish (snd (login_any secret_env world0 db0
                         (Some "alice@example.com") None (Some (JNum 12345678))))
  = mkResponse 500 (JObj [("success", JBool false);
                          ("error", JStr "Illegal arguments: number, string")]).
Proof. vm_compute. reflexivity. Qed.

Example login_number_password_unknown :
  finish (snd (login_any secret_env world0 db0
                         (Some "nobody@example.com") None (Some (JNum 12345678))))
  = mkResponse 401 (JObj [("success", JBool false);
                          ("message", JStr "Invalid credentials")]).
Proof. vm_compute. reflexivity. Qed.

Lemma login_by_email_ignores_username_witness :
  login secret_env world0 db0
        (set_body login_alice_as_bob (set_username (req_body login_alice_as_bob) None))
  = login secret_env world0 db0 login_alice_as_bob.
Proof.
  assert (He : b_email (req_body login_alice_as_bob) = Some "alice@example.com")
    by reflexivity.
  assert (Hne : "alice@example.com" <> "") by discriminate.
  exact (proj1 (login_by_email_ignores_username secret_env world0 db0
                  login_alice_as_bob "alice@example.com" He Hne) None).
Defined.

(** Bob's password does not open Alice's account. *)
Example login_alice_as_bob_rejected :
  login secret_env world0 db0 login_alice_as_bob = (db0, Responded invalid_credentials).
Proof. vm_compute. reflexivity. Qed.

Lemma getMe_deleted_identity_witness :
  getMe db0 (set_user blank_request carol)
  = (db0, Responded (mkResponse 200 (JObj [("success", JBool true); ("data", JNull)]))).
Proof.
  assert (Hu : user (set_user blank_request carol) = Some carol) by reflexivity.
  assert (Hid : isValidObjectId (_id carol) = true) by (vm_compute; reflexivity).
  assert (Hgone : forall v, In v db0 -> _id v <> _id carol).
  { intros v [<- | [<- | []]]; discriminate. }
  exact (getMe_deleted_identity db0 (set_user blank_request carol) carol Hu Hid Hgone).
Defined.

Lemma db0_trimmed : Forall trimmed db0.
Proof. repeat constructor. Qed.

Lemma register_duplicate_username_witness :
  exists e msg,
    register secret_env world0 db0 register_second_alice = (db0, NextErr e)
    /\ ((exists errs, e = ValidationError errs) \/ e = E11000)
    /\ finish (NextErr e)
       = mkResponse 400 (JObj [("success", JBool false); ("error", JStr msg)]).
Proof.
  assert (Hin : In alice db0) by (left; reflexivity).
  assert (Hun : b_username (req_body register_second_alice) = Some (username alice))
    by reflexivity.
  exact (register_duplicate_username secret_env world0 db0 register_second_alice
           alice db0_trimmed Hin Hun).
Defined.

Example register_second_alice_response :
  finish (snd (register secret_env world0 db0 register_second_alice))
  = mkResponse 400 (JObj [("success", JBool false);
                          ("error", JStr "Duplicate field value entered")]).
Proof. vm_compute. reflexivity. Qed.

(** ** The signing secret *)

(** With no secret the process listens and serves: a login with Alice's
    credentials is answered, by the error handler, when the token is to be
    issued; a request with a token is answered 401 when the token is to be
    verified. *)
Lemma startup_without_secret_counterexample :
  JS.truthy (JWT_SECRET no_secret_env) = false
  /\ ~ fails_fast_at_startup no_secret_env
  /\ serve (server_start no_secret_env) (login no_secret_env world0) db0
           (with_body (login_body (Some "alice@example.com") None (Some "alice-secret")))
     = Some (db0, mkResponse 500 (JObj [("success", JBool false);
                                        ("error", JStr secret_missing)]))
  /\ serve (server_start no_secret_env) (use (protect no_secret_env world0) getMe) db0
           (bearer alice)
     = Some (db0, not_authorized).
Proof.
  split; [reflexivity|].
  split; [intros [code Hcode]; discriminate|].
  split; vm_compute; reflexivity.
Qed.

Lemma missing_secret_fails_at_use_witness :
  server_start no_secret_env = Listening "5000"
  /\ (forall w d, getSignedJwtToken no_secret_env w d = Throw (Error secret_missing))
  /\ (forall w db req, protect no_secret_env w db req = Responded not_authorized).
Proof.
  assert (Hs : JS.truthy (JWT_SECRET no_secret_env) = false) by reflexivity.
  destruct (missing_secret_fails_at_use no_secret_env Hs) as (H1 & H2 & _ & _ & H5).
  exact (conj H1 (conj H2 H5)).
Defined.

(** With a secret and ["30d"] the token of the sample signer expires
    2592000 seconds after it was issued. *)
Example token_expiry_30d :
  getSignedJwtToken secret_env world0 (mkDoc alice default_fields)
  = Ok (jws_sign (mkClaims (_id alice) 1700000000 (Some (1700000000 + 2592000)%Z))
                 "s3cret").
Proof. vm_compute. reflexivity. Qed.

(** With a secret and no [JWT_EXPIRE] a login with Alice's credentials is
    answered 500. *)
Example login_without_JWT_EXPIRE :
  finish (snd (login no_expire_env world0 db0
                 (with_body (login_body (Some "alice@example.com") None
                                        (Some "alice-secret")))))
  = mkResponse 500 (JObj [("success", JBool false); ("error", JStr expiresIn_message)]).
Proof. vm_compute. reflexivity. Qed.

(** ** The password hash in responses *)

(** C4, on the code.  An administrator's [GET /api/v1/users] with
    [fields=+password] is answered 200 with the stored password hash of
    every identity listed; and the answer to [POST /api/v1/users] holds the
    stored hash of the identity created. *)
Theorem getUsers_discloses_password_hash :
  (exists resp,
      users_router secret_env world0 GET_users db0 list_with_password
      = (db0, Responded resp)
      /\ status resp = 200%Z
      /\ mentions (password alice) (body resp) = true
      /\ mentions (password bob) (body resp) = true)
  /\ (exists db' resp created,
         users_router secret_env world0 POST_users db0 create_dave
         = (db', Responded resp)
         /\ status resp = 201%Z
         /\ find (fun u => username u =? "dave") db' = Some created
         /\ mentions (password created) (body resp) = true).
Proof.
  split.
  - eexists. split; [vm_compute; reflexivity|].
    repeat split; vm_compute; reflexivity.
  - do 3 eexists. split; [vm_compute; reflexivity|].
    split; [reflexivity|].
    split; vm_compute; reflexivity.
Qed.

(** With no [fields] the hashes are not in the answer. *)
Example getUsers_default_hides_hash :
  exists resp,
    users_router secret_env world0 GET_users db0
                 (mkRequest (Some ("Bearer " ++ token_of alice)) empty_body [] "" None)
    = (db0, Responded resp)
    /\ mentions (password alice) (body resp) = false
    /\ mentions (password bob) (body resp) = false.
Proof.
  eexists. split; [vm_compute; reflexivity|].
  split; vm_compute; reflexivity.
Qed.

(** ** A password set by an update *)

Lemma update_password_stored_unhashed_witness :
  exists db' u',
    updateUser db0 update_bob_password
    = (db', Responded (mkResponse 200 (data_body (toJSON (mkDoc u' default_fields)))))
    /\ find (fun v => _id v =? _id bob) db' = Some u'
    /\ password u' = "newsecret"
    /\ (forall d, doc_user d = u' -> doc_password d = Some (password u') ->
        (forall p, matchPassword d p = Ok (bcrypt_compare p "newsecret"))
        /\ ~ (matchPassword d "newsecret" = Ok true
              /\ matchPassword d (password u') = Ok false)).
Proof.
  assert (Hid : isValidObjectId (_id bob) = true) by (vm_compute; reflexivity).
  assert (Hf : find (fun v => _id v =? _id bob) db0 = Some bob) by reflexivity.
  assert (Huniq : forall v, In v db0 -> _id v <> _id bob ->
                            username v <> username bob /\ email v <> email bob).
  { intros v [<- | [<- | []]] Hne.
    - split; discriminate.
    - now contradiction Hne. }
  assert (Hlen : (6 <= String.length "newsecret")%nat) by (simpl; lia).
  exact (update_password_stored_unhashed db0 update_bob_password bob "newsecret"
           Hid Hf Huniq Hlen eq_refl eq_refl).
Defined.

(** After the update Bob's new password does not log him in. *)
Example login_after_update :
  login secret_env world0 (fst (updateUser db0 update_bob_password))
        (with_body (login_body (Some "bob@example.com") None (Some "newsecret")))
  = (fst (updateUser db0 update_bob_password), Responded invalid_credentials).
Proof. vm_compute. reflexivity. Qed.

(* ================================================================== *)
(** * The further properties on the sample data *)
(* ================================================================== *)

Import Samples.

Lemma no_space_abc : no_space "abc".
Proof.
  intros c Hc. simpl in Hc.
  repeat (destruct Hc as [<- | Hc]; [discriminate|]). destruct Hc.
Qed.

Lemma no_space_X : no_space "X".
Proof.
  intros c Hc. simpl in Hc.
  repeat (destruct Hc as [<- | Hc]; [discriminate|]). destruct Hc.
Qed.

Lemma bearer_scheme_is_a_prefix_witness :
  bearer_token (Some ("Bearer" ++ "X" ++ " " ++ "abc")) = Some "abc".
Proof.
  exact (bearer_scheme_is_a_prefix "X" "abc" no_space_X no_space_abc).
Defined.

Lemma secret_env_configured : configured secret_env "s3cret" "30d" thirty_days.
Proof. repeat split; try discriminate; vm_compute; reflexivity. Qed.

(** The tokens of the sample signer are digits, letters and dots. *)
Lemma no_space_decidable (s : string) :
  forallb (fun c => negb (Ascii.eqb c " ")) (list_ascii_of_string s) = true ->
  no_space s.
Proof.
  intros H c Hc Heq. rewrite forallb_forall in H. specialize (H c Hc).
  subst c. discriminate.
Qed.

Lemma sample_well_signed (u : User) (w : World) :
  jws_verify (jws_sign (issued_claims (_id u) (now w) thirty_days) "s3cret") "s3cret"
  = Some (issued_claims (_id u) (now w) thirty_days) ->
  jws_sign (issued_claims (_id u) (now w) thirty_days) "s3cret" <> "" ->
  forallb (fun c => negb (Ascii.eqb c " "))
          (list_ascii_of_string
             (jws_sign (issued_claims (_id u) (now w) thirty_days) "s3cret")) = true ->
  well_signed (issued_claims (_id u) (now w) thirty_days) "s3cret".
Proof.
  intros Hv Hne Hsp. repeat split; [exact Hv | exact Hne | now apply no_space_decidable].
Qed.

Lemma alice_well_signed :
  well_signed (issued_claims (_id alice) (now world0) thirty_days) "s3cret".
Proof.
  apply sample_well_signed; [vm_compute; reflexivity | discriminate | vm_compute; reflexivity].
Qed.

Lemma carol_well_signed :
  well_signed (issued_claims (_id carol) (now world0) thirty_days) "s3cret".
Proof.
  apply sample_well_signed; [vm_compute; reflexivity | discriminate | vm_compute; reflexivity].
Qed.

Lemma issued_token_lifetime_witness :
  protect secret_env world_later db0
          (set_authorization blank_request
             ("Bearer " ++ jws_sign (issued_claims (_id alice) (now world0) thirty_days)
                                    "s3cret"))
  = if (now world0 / 1000 + thirty_days / 1000 <=? now world_later / 1000)%Z
    then Responded not_authorized
    else Next (set_user
                 (set_authorization blank_request
                    ("Bearer " ++ jws_sign (issued_claims (_id alice) (now world0)
                                                          thirty_days) "s3cret"))
                 alice).
Proof.
  assert (Hid : isValidObjectId (_id alice) = true) by (vm_compute; reflexivity).
  assert (Hf : find (fun v => _id v =? _id alice) db0 = Some alice) by reflexivity.
  exact (proj2 (issued_token_lifetime secret_env world0 world_later db0 blank_request
                  alice default_fields "s3cret" "30d" thirty_days
                  secret_env_configured alice_well_signed Hid Hf)).
Defined.

(** One second after it was issued the token opens the gate; thirty-one
    days after, it does not. *)
Example token_accepted_then_expired :
  protect secret_env world1 db0 (bearer alice) = Next (set_user (bearer alice) alice)
  /\ protect secret_env world_later db0 (bearer alice) = Responded not_authorized.
Proof. split; vm_compute; reflexivity. Qed.

Lemma token_of_deleted_identity_witness :
  protect secret_env world1 db0
          (set_authorization blank_request
             ("Bearer " ++ jws_sign (issued_claims (_id carol) (now world0) thirty_days)
                                    "s3cret"))
  = Responded (mkResponse 401
      (JObj [("success", JBool false); ("message", JStr "User not found")])).
Proof.
  assert (Hexp : claim_exp (issued_claims (_id carol) (now world0) thirty_days)
                 = Some 1702592000%Z) by (vm_compute; reflexivity).
  assert (Hlt : (now world1 / 1000 < 1702592000)%Z) by (vm_compute; reflexivity).
  assert (Hid : isValidObjectId
                  (claim_id (issued_claims (_id carol) (now world0) thirty_days)) = true)
    by (vm_compute; reflexivity).
  assert (Hgone : forall v, In v db0 ->
                            _id v <> claim_id (issued_claims (_id carol) (now world0)
                                                             thirty_days)).
  { intros v [<- | [<- | []]]; discriminate. }
  assert (Hs : JWT_SECRET secret_env = Some "s3cret") by reflexivity.
  assert (Hsne : "s3cret" <> "") by discriminate.
  exact (token_of_deleted_identity secret_env world1 db0 blank_request "s3cret"
           (issued_claims (_id carol) (now world0) thirty_days) 1702592000
           Hs Hsne carol_well_signed Hexp Hlt Hid Hgone).
Defined.

Lemma dave_valid :
  validation_errors body_paths (apply_setters (req_body register_dave)) = [].
Proof. vm_compute. reflexivity. Qed.

Lemma dave_ascii : ascii_body (req_body register_dave) = true.
Proof. reflexivity. Qed.

Lemma dave_is_new :
  forall v, In v db0 ->
            _id v <> fresh_id world0
            /\ username v <> JS.trim (value (b_username (req_body register_dave)))
            /\ email v <> value (b_email (req_body register_dave)).
Proof. intros v [<- | [<- | []]]; repeat split; discriminate. Qed.


(** The names are trimmed, the role is [client] and the password is
    hashed. *)
Example dave_as_stored :
  created_user dave_body world0
  = mkUser "65f000000000000000000003" "Dave" "dave" "dave@example.com" client
           (bcrypt_hash "daves-secret" (salt world0)) None None 1700000000000.
Proof. reflexivity. Qed.

Lemma register_stores_before_token_failure_witness :
  register no_secret_env world0 db0 register_dave
  = ((db0 ++ [created_user (req_body register_dave) world0])%list,
     NextErr (Error secret_missing)).
Proof.
  assert (Hs : JS.truthy (JWT_SECRET no_secret_env) = false) by reflexivity.
  exact (proj1 (register_stores_before_token_failure no_secret_env world0 db0
                  register_dave dave_ascii dave_valid dave_is_new Hs)).
Defined.

Lemma login_issues_token_for_identity_witness :
  login secret_env world1 db0 login_alice
  = (db0, Responded (mkResponse 200
       (JObj [("success", JBool true);
              ("token", JStr (jws_sign (issued_claims (_id alice) (now world1)
                                                      thirty_days) "s3cret"))]))).
Proof.
  assert (Hwf : well_formed_login (req_body login_alice))
    by (split; [left|]; reflexivity).
  assert (Hf : find (satisfies (login_query (b_email (req_body login_alice))
                                            (b_username (req_body login_alice)))) db0
               = Some alice) by (vm_compute; reflexivity).
  assert (Hpw : bcrypt_compare (value (b_password (req_body login_alice)))
                               (password alice) = true) by (vm_compute; reflexivity).
  exact (login_issues_token_for_identity secret_env world1 db0 login_alice alice
           "s3cret" "30d" thirty_days Hwf Hf Hpw secret_env_configured).
Defined.


Lemma getUsers_paging_witness :
  exists totalPages pagination,
    status (answer getUsers list_names) = 200%Z
    /\ get "currentPage" (body (answer getUsers list_names)) = Some (JNum 2)
    /\ get "totalPages" (body (answer getUsers list_names)) = Some (JNum totalPages)
    /\ ((totalPages - 1) * 1 < 2 <= totalPages * 1)%Z
    /\ get "pagination" (body (answer getUsers list_names)) = Some (JObj pagination)
    /\ get "next" (JObj pagination)
       = (if (2 <? totalPages)%Z then Some (page_json (2 + 1) 1) else None)
    /\ get "prev" (JObj pagination)
       = (if (1 <? 2)%Z then Some (page_json (2 - 1) 1) else None).
Proof.
  assert (A1 : ascii_value (query_get "page" (req_query list_names)) = true)
    by reflexivity.
  assert (A2 : ascii_value (query_get "limit" (req_query list_names)) = true)
    by reflexivity.
  assert (Hp : JS.num_or (JS.parseInt (query_get "page" (req_query list_names))) 1 = 2%Z)
    by reflexivity.
  assert (Hl : JS.num_or (JS.parseInt (query_get "limit" (req_query list_names))) 10 = 1%Z)
    by reflexivity.
  assert (Ht : countDocuments (build_queryObj (req_query list_names)) db0 = 2%Z)
    by (vm_compute; reflexivity).
  assert (P1 : (0 < 2)%Z) by lia.
  assert (P2 : (0 < 1)%Z) by lia.
  assert (P3 : (2 * 1 < 2 ^ 53)%Z) by (vm_compute; reflexivity).
  assert (P4 : (2 < 2 ^ 53)%Z) by (vm_compute; reflexivity).
  assert (H : getUsers db0 list_names = (db0, Responded (answer getUsers list_names)))
    by (vm_compute; reflexivity).
  exact (getUsers_paging db0 list_names (answer getUsers list_names) 2 1 2
           A1 A2 Hp Hl Ht P1 P2 P3 P4 H).
Defined.

(** The second page of one document out of two: a [prev] and no [next]. *)
Example second_page_of_two :
  get "pagination" (body (answer getUsers list_names))
  = Some (JObj [("prev", page_json 1 1)])
  /\ get "totalPages" (body (answer getUsers list_names)) = Some (JNum 2).
Proof. split; vm_compute; reflexivity. Qed.

Lemma malformed_id_is_not_found_witness :
  exists e,
    deleteUser db0 (with_id "not-an-id") = (db0, NextErr e)
    /\ finish (NextErr e)
       = mkResponse 404 (JObj [("success", JBool false);
                               ("error", JStr "Resource not found")]).
Proof.
  assert (Hid : isValidObjectId (params_id (with_id "not-an-id")) = false)
    by (vm_compute; reflexivity).
  assert (Hh : In deleteUser [getUser; updateUser; deleteUser])
    by (right; right; left; reflexivity).
  exact (malformed_id_is_not_found db0 (with_id "not-an-id") deleteUser Hid Hh).
Defined.

Lemma db0_canonical : forall v, In v db0 -> canonical_id (_id v) = true.
Proof. intros v [<- | [<- | []]]; reflexivity. Qed.

Lemma deleted_user_is_gone_witness :
  getUser [alice] delete_bob
  = ([alice], Responded (mkResponse 404
       (JObj [("success", JBool false);
              ("message", JStr ("User not found with id of " ++ params_id delete_bob))]))).
Proof.
  assert (Hid : canonical_id (params_id delete_bob) = true)
    by (vm_compute; reflexivity).
  assert (Hd : deleteUser db0 delete_bob
               = ([alice], Responded (mkResponse 200 (data_body (JObj [])))))
    by (vm_compute; reflexivity).
  exact (proj2 (deleted_user_is_gone db0 [alice] delete_bob _ Hid db0_canonical Hd)).
Defined.

Lemma registered_user_is_found_witness :
  getUser (db0 ++ [created_user (req_body register_dave) world0])%list
          (set_params_id register_dave (fresh_id world0))
  = ((db0 ++ [created_user (req_body register_dave) world0])%list,
     Responded (mkResponse 200
       (data_body (toJSON (mkDoc (created_user (req_body register_dave) world0)
                                 default_fields))))).
Proof.
  assert (Hid : canonical_id (fresh_id world0) = true) by (vm_compute; reflexivity).
  exact (proj1 (proj2 (registered_user_is_found secret_env world0 db0 register_dave
                         dave_ascii dave_valid dave_is_new Hid))).
Defined.

(** What an administrator reads of Dave after the registration. *)
Example dave_as_read :
  answer (fun _ => getUser (fst (register no_secret_env world0 db0 register_dave)))
         (set_params_id register_dave (fresh_id world0))
  = mkResponse 200
      (data_body (JObj [("_id", JStr "65f000000000000000000003");
                        ("name", JStr "Dave"); ("username", JStr "dave");
                        ("email", JStr "dave@example.com"); ("role", JStr "client");
                        ("createdAt", JNum 1700000000000)])).
Proof. vm_compute. reflexivity. Qed.

Lemma failed_write_keeps_store_witness :
  fst (users_handler world0 PUT_user db0 update_unknown) = db0.
Proof.
  assert (Hh : users_handler world0 PUT_user db0 update_unknown
               = (fst (users_handler world0 PUT_user db0 update_unknown),
                  Responded (user_not_found (params_id update_unknown))))
    by (vm_compute; reflexivity).
  assert (Hroute : PUT_user <> POST_users) by discriminate.
  assert (Hfail : forall r, Responded (user_not_found (params_id update_unknown))
                            = Responded r ->
                            status r <> 200%Z).
  { intros r [= <-]. discriminate. }
  exact (failed_write_keeps_store world0 PUT_user db0 _ update_unknown _
           Hroute Hh Hfail).
Defined.

Lemma db0_unique : unique_store db0.
Proof.
  repeat split; repeat constructor; simpl; intros H;
    repeat (destruct H as [H | H]; [discriminate|]); destruct H.
Qed.

Lemma handlers_keep_unique_indexes_witness :
  unique_store (fst (register secret_env world0 db0 register_dave))
  /\ unique_store (fst (users_handler world0 PUT_user db0 rename_bob)).
Proof.
  split.
  - exact (proj1 (handlers_keep_unique_indexes secret_env world0 PUT_user db0
                    register_dave db0_unique)).
  - exact (proj2 (handlers_keep_unique_indexes secret_env world0 PUT_user db0
                    rename_bob db0_unique)).
Defined.

Lemma update_keeps_identity_witness :
  map _id (fst (updateUser db0 rename_bob)) = map _id db0.
Proof.
  assert (Hid : canonical_id (params_id rename_bob) = true)
    by (vm_compute; reflexivity).
  assert (Hids : NoDup (map _id db0)) by exact (proj1 db0_unique).
  assert (Hu : updateUser db0 rename_bob
               = (fst (updateUser db0 rename_bob), snd (updateUser db0 rename_bob)))
    by apply surjective_pairing.
  exact (proj1 (update_keeps_identity db0 _ rename_bob _ Hid db0_canonical Hids Hu)).
Defined.

Example bob_renamed :
  map name (fst (updateUser db0 rename_bob)) = ["Alice"; "Robert"].
Proof. vm_compute. reflexivity. Qed.

Lemma users_path_not_public : ~ public_path "/api/v1/users".
Proof.
  intros (endpoint & Hin & Hs).
  repeat (destruct Hin as [<- | Hin]; [discriminate|]). destruct Hin.
Qed.

Lemma empty_API_KEYS_locks_out_witness :
  exists msg,
    apiKeyAuth (Some "") "/api/v1/users" (Some "any-key")
    = Reply (mkResponse 401 (JObj [("success", JBool false); ("error", JStr msg)])).
Proof.
  exact (empty_API_KEYS_locks_out "/api/v1/users" (Some "any-key") users_path_not_public).
Defined.

Example apiKeyAuth_examples :
  apiKeyAuth (Some "k1,k2") "/api/v1/users" (Some "k2") = Pass
  /\ apiKeyAuth (Some "k1,k2") "/api/v1/users" (Some "k3")
     = Reply (mkResponse 401 (error_body "Invalid API key"))
  /\ apiKeyAuth (Some "k1,k2") "/api/v1/users" None
     = Reply (mkResponse 401 (error_body "API key is required"))
  /\ apiKeyAuth (Some "k1,k2") "/api/v1/auth/login" None = Pass
  /\ apiKeyAuth None "/api/v1/users" None = Pass.
Proof. repeat split; vm_compute; reflexivity. Qed.

Lemma requestSizeLimit_rejects_iff_witness :
  exists r, requestSizeLimit (Some "1000000") (Some "2000000") = Reply r
            /\ status r = 413%Z.
Proof.
  assert (A1 : ascii_value (Some "1000000") = true) by reflexivity.
  assert (A2 : ascii_value (Some "2000000") = true) by reflexivity.
  assert (S1 : safe_number (MAX_FILE_UPLOAD (Some "1000000")))
    by (vm_compute; reflexivity).
  assert (S2 : safe_number (JS.parseInt (Some (JS.or_else (Some "2000000") "0"))))
    by (vm_compute; reflexivity).
  assert (H : exists n m,
             JS.parseInt (Some (JS.or_else (Some "2000000") "0")) = Some n
             /\ MAX_FILE_UPLOAD (Some "1000000") = Some m /\ (m < n)%Z).
  { exists 2000000%Z, 1000000%Z. repeat split. }
  exact (proj2 (proj1 (requestSizeLimit_rejects_iff (Some "1000000") (Some "2000000")
                         A1 A2 S1 S2)) H).
Defined.

Example requestSizeLimit_examples :
  requestSizeLimit None (Some "1000000") = Pass
  /\ requestSizeLimit None (Some "1000001")
     = Reply (mkResponse 413 (error_body
         "Request entity too large. Maximum size is 1000000 bytes"))
  /\ requestSizeLimit (Some "none") (Some "99999999") = Pass.
Proof. repeat split; vm_compute; reflexivity. Qed.

Lemma seeder_is_idempotent_witness :
  createAdminUser world1 (fst (createAdminUser world0 db0))
  = (fst (createAdminUser world0 db0), 0%Z).
Proof.
  assert (H0 : createAdminUser world0 db0 = (fst (createAdminUser world0 db0), 0%Z))
    by (vm_compute; reflexivity).
  exact (proj2 (proj2 (seeder_is_idempotent world0 world1 db0 _ H0))).
Defined.

Example seeder_adds_administrator :
  map username (fst (createAdminUser world0 db0)) = ["alice"; "bob"; "admin_konsulta"]
  /\ map role (fst (createAdminUser world0 db0)) = [administrator; client; administrator].
Proof. split; vm_compute; reflexivity. Qed.
